(** * A browser calculator with a capped, persisted history

    Shallow embedding of [script.js].  The script keeps five variables
    ([currentInput], [operator], [previousInput], [history],
    [waitingForSecondOperand]), writes to three page elements and to one
    [localStorage] key.  The embedding passes all of that around as one
    record; functions that can throw return an [Outcome] carrying the
    state reached when the exception left them.

    JavaScript strings are held as the UTF-8 bytes of their text, numbers
    as IEEE-754 binary64 values ([spec_float] with [prec = 53] and
    [emax = 1024]), [localStorage] as a finite map from keys to strings
    whose reads and writes always succeed. *)

From Stdlib Require Import ZArith String Ascii List Bool Lia.
From Stdlib Require Import SpecFloat DecimalString.
From stdpp Require Import gmap strings.

Open Scope string_scope.
Open Scope Z_scope.

(** ** Strings *)

Module Str.

Definition code (c : ascii) : Z := Z.of_N (N_of_ascii c).

Definition chr (z : Z) : ascii := ascii_of_N (Z.to_N z).

(** [s.includes(c)] for a one-character needle. *)
Fixpoint includes (c : ascii) (s : string) : bool :=
  match s with
  | EmptyString => false
  | String a r => Ascii.eqb a c || includes c r
  end.

Fixpoint count (c : ascii) (s : string) : nat :=
  match s with
  | EmptyString => O
  | String a r => (if Ascii.eqb a c then 1 else 0) + count c r
  end.

Fixpoint take (n : nat) (s : string) : string :=
  match n, s with
  | S n', String a r => String a (take n' r)
  | _, _ => EmptyString
  end.

Fixpoint drop (n : nat) (s : string) : string :=
  match n, s with
  | S n', String _ r => drop n' r
  | _, _ => s
  end.

Fixpoint zeros (n : nat) : string :=
  match n with
  | O => EmptyString
  | S n' => String "0" (zeros n')
  end.

Fixpoint rev_onto (s acc : string) : string :=
  match s with
  | EmptyString => acc
  | String a r => rev_onto r (String a acc)
  end.

Definition rev (s : string) : string := rev_onto s EmptyString.

(** Does [p] start [s]; if so, what follows it. *)
Fixpoint strip_prefix (p s : string) : option string :=
  match p, s with
  | EmptyString, _ => Some s
  | String a p', String b s' => if Ascii.eqb a b then strip_prefix p' s' else None
  | String _ _, EmptyString => None
  end.

(** White space and line terminators of ECMAScript, in UTF-8: the six
    ASCII ones, U+00A0, U+1680, U+2000..U+200A, U+2028, U+2029, U+202F,
    U+205F, U+3000 and U+FEFF. *)
Definition ws1 (a : ascii) : bool :=
  let n := code a in ((9 <=? n) && (n <=? 13)) || (n =? 32).

Definition ws2 (a b : ascii) : bool :=
  (code a =? 194) && (code b =? 160).

Definition ws3 (a b c : ascii) : bool :=
  let x := code a in let y := code b in let z := code c in
     ((x =? 225) && (y =? 154) && (z =? 128))
  || ((x =? 226) && (y =? 128)
        && (((128 <=? z) && (z <=? 138)) || (z =? 168) || (z =? 169) || (z =? 175)))
  || ((x =? 226) && (y =? 129) && (z =? 159))
  || ((x =? 227) && (y =? 128) && (z =? 128))
  || ((x =? 239) && (y =? 187) && (z =? 191)).

Fixpoint trim_start (s : string) : string :=
  match s with
  | EmptyString => s
  | String a s1 =>
      if ws1 a then trim_start s1 else
      match s1 with
      | EmptyString => s
      | String b s2 =>
          if ws2 a b then trim_start s2 else
          match s2 with
          | EmptyString => s
          | String c s3 => if ws3 a b c then trim_start s3 else s
          end
      end
  end.

(** The same scan over the reversed text, where the bytes of a
    character arrive last byte first. *)
Fixpoint trim_start_rev (s : string) : string :=
  match s with
  | EmptyString => s
  | String a s1 =>
      if ws1 a then trim_start_rev s1 else
      match s1 with
      | EmptyString => s
      | String b s2 =>
          if ws2 b a then trim_start_rev s2 else
          match s2 with
          | EmptyString => s
          | String c s3 => if ws3 c b a then trim_start_rev s3 else s
          end
      end
  end.

(** [s.trim()] *)
Definition trim (s : string) : string :=
  rev (trim_start_rev (rev (trim_start s))).

(** [s.split(c)[0]]: the text before the first [c], all of [s] when
    there is none. *)
Fixpoint before (c : ascii) (s : string) : string :=
  match s with
  | EmptyString => EmptyString
  | String a r => if Ascii.eqb a c then EmptyString else String a (before c r)
  end.

Fixpoint join (sep : string) (l : list string) : string :=
  match l with
  | nil => EmptyString
  | x :: nil => x
  | x :: r => x ++ sep ++ join sep r
  end.

End Str.

(** ** Numbers *)

Module Num.

Definition prec : Z := 53.
Definition emax : Z := 1024.

Definition t : Type := spec_float.

Definition NaN : t := S754_nan.

Definition add : t -> t -> t := SFadd prec emax.
Definition sub : t -> t -> t := SFsub prec emax.
Definition mul : t -> t -> t := SFmul prec emax.
Definition div : t -> t -> t := SFdiv prec emax.

(** [a === b] and [a !== b] on numbers: NaN differs from everything, the
    two zeros are equal. *)
Definition eqb : t -> t -> bool := SFeqb.
Definition neqb (a b : t) : bool := negb (eqb a b).

(** The double nearest to [(-1)^neg * M * 10^p], ties to even. *)
Definition of_decimal (neg : bool) (M p : Z) : t :=
  match M with
  | Zpos m =>
      if 0 <=? p
      then binary_round prec emax neg (Z.to_pos (Zpos m * 10 ^ p)) 0
      else SFdiv prec emax (S754_finite neg m 0)
                           (S754_finite false (Z.to_pos (10 ^ (- p))) 0)
  | _ => S754_zero neg
  end.

Definition of_Z (z : Z) : t := of_decimal (z <? 0) (Z.abs z) 0.

Definition zero : t := S754_zero false.

(** *** Number to string *)

Definition dec_string (z : Z) : string :=
  NilZero.string_of_uint (N.to_uint (Z.to_N z)).

Definition ndigits (z : Z) : Z := Z.of_nat (String.length (dec_string z)).

(** The value [m * 2^e] as a fraction. *)
Definition frac_of (m : positive) (e : Z) : Z * Z :=
  if 0 <=? e then (Zpos m * 2 ^ e, 1) else (Zpos m, 2 ^ (- e)).

(** The [n] with [10^(n-1) <= num/den < 10^n].  Below one the count is
    read off the integer part of the inverse, which is never a power of
    ten for a binary fraction. *)
Definition decimal_exponent (num den : Z) : Z :=
  if den <=? num then ndigits (num / den) else 1 - ndigits (den / num).

(** [num/den * 10^p] as a fraction. *)
Definition scaled (num den p : Z) : Z * Z :=
  if 0 <=? p then (num * 10 ^ p, den) else (num, den * 10 ^ (- p)).

(** The [k]-digit decimals on either side of [num/den]: the one that
    reads back as [x], the nearer one when both do, the even one on a
    tie. *)
Definition candidate (x : t) (num den n k : Z) : option (Z * Z) :=
  let '(tn, td) := scaled num den (k - n) in
  let lo := tn / td in
  let r := tn mod td in
  let hi := lo + 1 in
  let ok s := eqb (of_decimal false s (n - k)) x in
  let up := if hi =? 10 ^ k then (10 ^ (k - 1), n + 1) else (hi, n) in
  match ok lo, ok hi with
  | true, true =>
      Some match 2 * r ?= td with
           | Lt => (lo, n)
           | Gt => up
           | Eq => if Z.even lo then (lo, n) else up
           end
  | true, false => Some (lo, n)
  | false, true => Some up
  | false, false => None
  end.

(** Fewest digits first; seventeen digits always read back, so the last
    case only closes the recursion. *)
Fixpoint shortest (todo : nat) (x : t) (num den n k : Z) : Z * Z :=
  match todo with
  | O => let '(tn, td) := scaled num den (k - n) in ((2 * tn + td) / (2 * td), n)
  | S todo' =>
      match candidate x num den n k with
      | Some c => c
      | None => shortest todo' x num den n (k + 1)
      end
  end.

(** Steps 6 to 10 of Number::toString: digits [s], decimal point after
    the [n]-th of them. *)
Definition format_decimal (s n : Z) : string :=
  let ds := dec_string s in
  let k := Z.of_nat (String.length ds) in
  if (k <=? n) && (n <=? 21) then
    ds ++ Str.zeros (Z.to_nat (n - k))
  else if (0 <? n) && (n <=? 21) then
    Str.take (Z.to_nat n) ds ++ "." ++ Str.drop (Z.to_nat n) ds
  else if (-6 <? n) && (n <=? 0) then
    "0." ++ Str.zeros (Z.to_nat (- n)) ++ ds
  else
    let e := n - 1 in
    let sign := if e <? 0 then "-" else "+" in
    let mant := if k =? 1 then ds else Str.take 1 ds ++ "." ++ Str.drop 1 ds in
    mant ++ "e" ++ sign ++ dec_string (Z.abs e).

Definition to_string_pos (m : positive) (e : Z) : string :=
  let '(num, den) := frac_of m e in
  let n := decimal_exponent num den in
  let '(s, n') := shortest 17 (S754_finite false m e) num den n 1 in
  format_decimal s n'.

(** [String(x)] for a number. *)
Definition to_string (x : t) : string :=
  match x with
  | S754_nan => "NaN"
  | S754_zero _ => "0"
  | S754_infinity false => "Infinity"
  | S754_infinity true => "-Infinity"
  | S754_finite false m e => to_string_pos m e
  | S754_finite true m e => "-" ++ to_string_pos m e
  end.

(** *** String to number *)

Definition digit_of (c : ascii) : option Z :=
  let n := Str.code c in
  if (48 <=? n) && (n <=? 57) then Some (n - 48) else None.

(** Reads a run of decimal digits: its value on top of [acc], how many
    there were on top of [cnt], and what follows. *)
Fixpoint read_digits (s : string) (acc cnt : Z) : Z * Z * string :=
  match s with
  | EmptyString => (acc, cnt, s)
  | String c r =>
      match digit_of c with
      | Some d => read_digits r (10 * acc + d) (cnt + 1)
      | None => (acc, cnt, s)
      end
  end.

(** The exponent part, when a whole one is there. *)
Definition read_exponent (s : string) : Z :=
  match s with
  | String c r =>
      if (Str.code c =? 101) || (Str.code c =? 69) then
        let '(neg, r') :=
          match r with
          | String "-" r1 => (true, r1)
          | String "+" r1 => (false, r1)
          | _ => (false, r)
          end in
        let '(v, cnt, _) := read_digits r' 0 0 in
        if cnt =? 0 then 0 else if neg then - v else v
      else 0
  | EmptyString => 0
  end.

(** The longest prefix that is a StrDecimalLiteral without its sign. *)
Definition parse_unsigned (neg : bool) (s : string) : t :=
  match Str.strip_prefix "Infinity" s with
  | Some _ => S754_infinity neg
  | None =>
      let '(i, ci, r) := read_digits s 0 0 in
      let '(m, cf, r') :=
        match r with
        | String "." r1 =>
            let '(m, cf, r2) := read_digits r1 i 0 in
            if (ci =? 0) && (cf =? 0) then (i, 0, r) else (m, cf, r2)
        | _ => (i, 0, r)
        end in
      if (ci =? 0) && (cf =? 0) then NaN
      else of_decimal neg m (read_exponent r' - cf)
  end.

(** [parseFloat(s)] for a string. *)
Definition parseFloat (s : string) : t :=
  match Str.trim_start s with
  | String "-" r => parse_unsigned true r
  | String "+" r => parse_unsigned false r
  | r => parse_unsigned false r
  end.

End Num.

(** ** Values *)

(** The primitives the calculator computes with: a number, or a string
    (the empty string of an unset [previousInput], the ['Error'] of a
    division by zero). *)
Inductive Prim : Type :=
  | PNum (x : Num.t)
  | PStr (s : string).

(** [String(v)], also what a template literal and [+] with a string do. *)
Definition ToString (v : Prim) : string :=
  match v with
  | PNum x => Num.to_string x
  | PStr s => s
  end.

(** [parseFloat(v)]: the argument is turned into a string first. *)
Definition parseFloat (v : Prim) : Num.t := Num.parseFloat (ToString v).

(** What [JSON.parse] can return.  An object keeps its properties in
    the order JavaScript enumerates them. *)
#[warnings="-register-all"]
Inductive JSValue : Type :=
  | JNull
  | JBool (b : bool)
  | JNum (x : Num.t)
  | JStr (s : string)
  | JArr (items : list JSValue)
  | JObj (props : list (string * JSValue)).

Inductive Exn : Type :=
  | SyntaxError
  | TypeError.

Module Obj.

Definition props : Type := list (string * JSValue).

(** [o[k]], [None] for undefined. *)
Fixpoint get (k : string) (o : props) : option JSValue :=
  match o with
  | nil => None
  | (k', v) :: r => if String.eqb k' k then Some v else get k r
  end.

Definition has (k : string) (o : props) : bool :=
  match get k o with Some _ => true | None => false end.

(** A key that is the canonical text of an integer below [2^32 - 1] is
    an array index; indices are enumerated first, in ascending order. *)
Definition array_index (k : string) : option Z :=
  let '(v, cnt, r) := Num.read_digits k 0 0 in
  if (0 <? cnt) && String.eqb r "" && String.eqb (Num.dec_string v) k
     && (v <? 4294967295)
  then Some v else None.

Fixpoint replace (k : string) (v : JSValue) (o : props) : props :=
  match o with
  | nil => nil
  | (k', v') :: r =>
      if String.eqb k' k then (k', v) :: r else (k', v') :: replace k v r
  end.

Fixpoint insert_index (i : Z) (k : string) (v : JSValue) (o : props) : props :=
  match o with
  | nil => (k, v) :: nil
  | (k', v') :: r =>
      match array_index k' with
      | Some j => if j <? i then (k', v') :: insert_index i k v r
                  else (k, v) :: o
      | None => (k, v) :: o
      end
  end.

(** CreateDataProperty on an ordinary object. *)
Definition set (k : string) (v : JSValue) (o : props) : props :=
  if has k o then replace k v o
  else match array_index k with
       | Some i => insert_index i k v o
       | None => (o ++ (k, v) :: nil)%list
       end.

End Obj.

(** ** JSON *)

Module JSON.

Definition dq : string := String (Str.chr 34) EmptyString.

Inductive Token : Type :=
  | TLBrace | TRBrace | TLBrack | TRBrack | TColon | TComma
  | TStr (s : string)
  | TNum (x : Num.t)
  | TTrue | TFalse | TNull.

(** *** Lexing *)

(** UTF-8 bytes of a code point (of a lone surrogate too), last byte
    first, in front of [acc]. *)
Definition utf8_onto (cp : Z) (acc : string) : string :=
  let b z := Str.chr z in
  if cp <? 128 then String (b cp) acc
  else if cp <? 2048 then
    String (b (128 + cp mod 64)) (String (b (192 + cp / 64)) acc)
  else if cp <? 65536 then
    String (b (128 + cp mod 64))
      (String (b (128 + (cp / 64) mod 64)) (String (b (224 + cp / 4096)) acc))
  else
    String (b (128 + cp mod 64))
      (String (b (128 + (cp / 64) mod 64))
         (String (b (128 + (cp / 4096) mod 64)) (String (b (240 + cp / 262144)) acc))).

(** A string under construction: its bytes so far, last first, and a
    high surrogate from a [\u] escape that still waits for its mate. *)
Record Partial : Type := { bytes : string; high : option Z }.

Definition flush (p : Partial) : string :=
  match high p with
  | Some h => utf8_onto h (bytes p)
  | None => bytes p
  end.

Definition push_byte (c : ascii) (p : Partial) : Partial :=
  {| bytes := String c (flush p); high := None |}.

Definition push_unit (u : Z) (p : Partial) : Partial :=
  match high p with
  | Some h =>
      if (56320 <=? u) && (u <=? 57343)
      then {| bytes := utf8_onto (65536 + (h - 55296) * 1024 + (u - 56320)) (bytes p);
              high := None |}
      else if (55296 <=? u) && (u <=? 56319)
      then {| bytes := flush p; high := Some u |}
      else {| bytes := utf8_onto u (flush p); high := None |}
  | None =>
      if (55296 <=? u) && (u <=? 56319)
      then {| bytes := bytes p; high := Some u |}
      else {| bytes := utf8_onto u (bytes p); high := None |}
  end.

Definition hex_of (c : ascii) : option Z :=
  let n := Str.code c in
  if (48 <=? n) && (n <=? 57) then Some (n - 48)
  else if (97 <=? n) && (n <=? 102) then Some (n - 87)
  else if (65 <=? n) && (n <=? 70) then Some (n - 55)
  else None.

(** The whole of [s] as a JSON number: an optional minus, then a zero
    or digits that do not start with zero, then optionally a point with
    at least one digit, then optionally e or E, a sign and at least one
    digit. *)
Definition number (s : string) : option Num.t :=
  let '(neg, s1) :=
    match s with
    | String "-" r => (true, r)
    | _ => (false, s)
    end in
  let '(i, ci, r) := Num.read_digits s1 0 0 in
  let padded := match s1 with String "0" _ => 1 <? ci | _ => false end in
  if (ci =? 0) || padded then None else
  let finish (m cf : Z) (r : string) : option Num.t :=
    match r with
    | EmptyString => Some (Num.of_decimal neg m (- cf))
    | String c r1 =>
        if (Str.code c =? 101) || (Str.code c =? 69) then
          let '(eneg, r2) :=
            match r1 with
            | String "-" r' => (true, r')
            | String "+" r' => (false, r')
            | _ => (false, r1)
            end in
          let '(v, cnt, r3) := Num.read_digits r2 0 0 in
          if (0 <? cnt) && String.eqb r3 ""
          then Some (Num.of_decimal neg m ((if eneg then - v else v) - cf))
          else None
        else None
    end in
  match r with
  | String "." r1 =>
      let '(m, cf, r2) := Num.read_digits r1 i 0 in
      if cf =? 0 then None else finish m cf r2
  | _ => finish i 0 r
  end.

Definition word (s : string) : option Token :=
  if String.eqb s "true" then Some TTrue
  else if String.eqb s "false" then Some TFalse
  else if String.eqb s "null" then Some TNull
  else None.

Inductive Mode : Type :=
  | MIdle
  | MWord (acc : string)
  | MNumber (acc : string)
  | MString (p : Partial)
  | MEscape (p : Partial)
  | MHex (p : Partial) (digits : list Z).

(** One character met between tokens. *)
Definition idle (c : ascii) (out : list Token) : option (Mode * list Token) :=
  let n := Str.code c in
  if (n =? 32) || (n =? 9) || (n =? 10) || (n =? 13) then Some (MIdle, out)
  else if n =? 123 then Some (MIdle, TLBrace :: out)
  else if n =? 125 then Some (MIdle, TRBrace :: out)
  else if n =? 91 then Some (MIdle, TLBrack :: out)
  else if n =? 93 then Some (MIdle, TRBrack :: out)
  else if n =? 58 then Some (MIdle, TColon :: out)
  else if n =? 44 then Some (MIdle, TComma :: out)
  else if n =? 34 then Some (MString {| bytes := ""; high := None |}, out)
  else if (n =? 45) || ((48 <=? n) && (n <=? 57)) then Some (MNumber (String c ""), out)
  else if (97 <=? n) && (n <=? 122) then Some (MWord (String c ""), out)
  else None.

Definition in_number (c : ascii) : bool :=
  let n := Str.code c in
  ((48 <=? n) && (n <=? 57)) || (n =? 43) || (n =? 45) || (n =? 46)
  || (n =? 101) || (n =? 69).

Definition in_word (c : ascii) : bool :=
  let n := Str.code c in (97 <=? n) && (n <=? 122).

Definition close_word (acc : string) (out : list Token) : option (list Token) :=
  match word (Str.rev acc) with
  | Some t => Some (t :: out)
  | None => None
  end.

Definition close_number (acc : string) (out : list Token) : option (list Token) :=
  match number (Str.rev acc) with
  | Some x => Some (TNum x :: out)
  | None => None
  end.

Definition escape (c : ascii) (p : Partial) : option Mode :=
  let n := Str.code c in
  if (n =? 34) || (n =? 92) || (n =? 47) then Some (MString (push_byte c p))
  else if n =? 98 then Some (MString (push_byte (Str.chr 8) p))
  else if n =? 102 then Some (MString (push_byte (Str.chr 12) p))
  else if n =? 110 then Some (MString (push_byte (Str.chr 10) p))
  else if n =? 114 then Some (MString (push_byte (Str.chr 13) p))
  else if n =? 116 then Some (MString (push_byte (Str.chr 9) p))
  else if n =? 117 then Some (MHex p nil)
  else None.

(** The tokens of [s], last first in [out]; [None] where the text is no
    JSON. *)
Fixpoint lex (m : Mode) (out : list Token) (s : string) : option (list Token) :=
  match s with
  | EmptyString =>
      match m with
      | MIdle => Some (List.rev out)
      | MWord acc => option_map (@List.rev Token) (close_word acc out)
      | MNumber acc => option_map (@List.rev Token) (close_number acc out)
      | _ => None
      end
  | String c r =>
      match m with
      | MIdle =>
          match idle c out with
          | Some (m', out') => lex m' out' r
          | None => None
          end
      | MWord acc =>
          if in_word c then lex (MWord (String c acc)) out r
          else match close_word acc out with
               | Some out1 =>
                   match idle c out1 with
                   | Some (m', out') => lex m' out' r
                   | None => None
                   end
               | None => None
               end
      | MNumber acc =>
          if in_number c then lex (MNumber (String c acc)) out r
          else match close_number acc out with
               | Some out1 =>
                   match idle c out1 with
                   | Some (m', out') => lex m' out' r
                   | None => None
                   end
               | None => None
               end
      | MString p =>
          let n := Str.code c in
          if n =? 34 then lex MIdle (TStr (Str.rev (flush p)) :: out) r
          else if n =? 92 then lex (MEscape p) out r
          else if n <? 32 then None
          else lex (MString (push_byte c p)) out r
      | MEscape p =>
          match escape c p with
          | Some m' => lex m' out r
          | None => None
          end
      | MHex p ds =>
          match hex_of c with
          | Some d =>
              match ds with
              | d3 :: d2 :: d1 :: nil =>
                  lex (MString (push_unit (((d1 * 16 + d2) * 16 + d3) * 16 + d) p)) out r
              | _ => lex (MHex p (d :: ds)) out r
              end
          | None => None
          end
      end
  end.

(** *** Parsing *)

Inductive Frame : Type :=
  | FArr (done : list JSValue)
  | FObj (done : Obj.props) (key : string).

Inductive Expect : Type :=
  | EValue (stack : list Frame)
  | EArrFirst (stack : list Frame)
  | EArrNext (done : list JSValue) (stack : list Frame)
  | EObjFirst (stack : list Frame)
  | EObjKey (done : Obj.props) (stack : list Frame)
  | EColon (done : Obj.props) (key : string) (stack : list Frame)
  | EObjNext (done : Obj.props) (stack : list Frame)
  | EEnd (v : JSValue).

(** A value is complete: hand it to the enclosing array or object. *)
Definition reduce (v : JSValue) (stack : list Frame) : Expect :=
  match stack with
  | nil => EEnd v
  | FArr done :: st => EArrNext (v :: done) st
  | FObj done key :: st => EObjNext (Obj.set key v done) st
  end.

Definition value (t : Token) (stack : list Frame) : option Expect :=
  match t with
  | TLBrack => Some (EArrFirst stack)
  | TLBrace => Some (EObjFirst stack)
  | TStr s => Some (reduce (JStr s) stack)
  | TNum x => Some (reduce (JNum x) stack)
  | TTrue => Some (reduce (JBool true) stack)
  | TFalse => Some (reduce (JBool false) stack)
  | TNull => Some (reduce JNull stack)
  | _ => None
  end.

Definition shift (e : Expect) (t : Token) : option Expect :=
  match e, t with
  | EValue st, _ => value t st
  | EArrFirst st, TRBrack => Some (reduce (JArr nil) st)
  | EArrFirst st, _ => value t (FArr nil :: st)
  | EArrNext done st, TComma => Some (EValue (FArr done :: st))
  | EArrNext done st, TRBrack => Some (reduce (JArr (List.rev done)) st)
  | EObjFirst st, TRBrace => Some (reduce (JObj nil) st)
  | EObjFirst st, TStr k => Some (EColon nil k st)
  | EObjKey done st, TStr k => Some (EColon done k st)
  | EColon done k st, TColon => Some (EValue (FObj done k :: st))
  | EObjNext done st, TComma => Some (EObjKey done st)
  | EObjNext done st, TRBrace => Some (reduce (JObj done) st)
  | _, _ => None
  end.

Fixpoint run (e : Expect) (ts : list Token) : option JSValue :=
  match ts with
  | nil => match e with EEnd v => Some v | _ => None end
  | t :: r =>
      match shift e t with
      | Some e' => run e' r
      | None => None
      end
  end.

(** [JSON.parse(s)]; [None] stands for the SyntaxError it throws. *)
Definition parse (s : string) : option JSValue :=
  match lex MIdle nil s with
  | Some ts => run (EValue nil) ts
  | None => None
  end.

(** *** Printing *)

Definition hex_digit (z : Z) : ascii :=
  if z <? 10 then Str.chr (48 + z) else Str.chr (87 + z).

Definition u_escape (u : Z) : string :=
  "\u" ++ String (hex_digit (u / 4096))
            (String (hex_digit ((u / 256) mod 16))
               (String (hex_digit ((u / 16) mod 16))
                  (String (hex_digit (u mod 16)) ""))).

Definition quote_byte (c : ascii) : string :=
  let n := Str.code c in
  if n =? 34 then "\" ++ dq
  else if n =? 92 then "\\"
  else if n =? 8 then "\b"
  else if n =? 9 then "\t"
  else if n =? 10 then "\n"
  else if n =? 12 then "\f"
  else if n =? 13 then "\r"
  else if n <? 32 then u_escape n
  else String c "".

(** The characters of a quoted string; a lone surrogate (bytes [ED],
    [A0..BF], [80..BF]) is written as a [\u] escape. *)
Fixpoint quote_body (s : string) : string :=
  match s with
  | EmptyString => EmptyString
  | String a r =>
      match r with
      | String b (String c r') =>
          if (Str.code a =? 237) && (160 <=? Str.code b)
          then u_escape (53248 + (Str.code b mod 64) * 64 + Str.code c mod 64)
                 ++ quote_body r'
          else quote_byte a ++ quote_body r
      | _ => quote_byte a ++ quote_body r
      end
  end.

Definition quote (s : string) : string := dq ++ quote_body s ++ dq.

Definition finite (x : Num.t) : bool :=
  match x with
  | S754_zero _ | S754_finite _ _ _ => true
  | _ => false
  end.

(** [JSON.stringify(v)] for a value without functions or [undefined]. *)
Fixpoint stringify (v : JSValue) : string :=
  match v with
  | JNull => "null"
  | JBool true => "true"
  | JBool false => "false"
  | JNum x => if finite x then Num.to_string x else "null"
  | JStr s => quote s
  | JArr items => "[" ++ Str.join "," (List.map stringify items) ++ "]"
  | JObj props =>
      "{" ++ Str.join ","
               (List.map (fun kv => match kv with
                                    | (k, x) => quote k ++ ":" ++ stringify x
                                    end) props) ++ "}"
  end.

End JSON.

(** ** The page and the script's variables *)

(** Modelled from the spec: the markup that gives the operator buttons
    their text is not among the sources.  An operator is one of the four
    of the specification, and the text of its button is its key in
    [performCalculation]. *)
Inductive Operator : Type :=
  | Divide
  | Multiply
  | Add
  | Subtract.

Definition symbol (o : Operator) : string :=
  match o with
  | Divide => "/"
  | Multiply => "*"
  | Add => "+"
  | Subtract => "-"
  end.

(** Children of the history list: markup assigned through [innerHTML],
    or an [li] element appended with the given [innerHTML]. *)
Inductive Node : Type :=
  | Markup (html : string)
  | Li (innerHTML : string).

(** The variables of the script, the text of the two displays, the
    children of the history list, and the storage of the page.  The
    markup is not among the sources: the three elements are taken to
    exist and to start empty. *)
Record State : Type := {
  currentInput : string;
  operator : option Operator;
  previousInput : Prim;
  history : JSValue;
  waitingForSecondOperand : bool;
  currentDisplay : string;
  historyDisplay : string;
  calculationHistoryList : list Node;
  localStorage : gmap string string
}.

Definition set_currentInput (v : string) (st : State) : State :=
  {| currentInput := v; operator := operator st;
     previousInput := previousInput st; history := history st;
     waitingForSecondOperand := waitingForSecondOperand st;
     currentDisplay := currentDisplay st; historyDisplay := historyDisplay st;
     calculationHistoryList := calculationHistoryList st;
     localStorage := localStorage st |}.

Definition set_operator (v : option Operator) (st : State) : State :=
  {| currentInput := currentInput st; operator := v;
     previousInput := previousInput st; history := history st;
     waitingForSecondOperand := waitingForSecondOperand st;
     currentDisplay := currentDisplay st; historyDisplay := historyDisplay st;
     calculationHistoryList := calculationHistoryList st;
     localStorage := localStorage st |}.

Definition set_previousInput (v : Prim) (st : State) : State :=
  {| currentInput := currentInput st; operator := operator st;
     previousInput := v; history := history st;
     waitingForSecondOperand := waitingForSecondOperand st;
     currentDisplay := currentDisplay st; historyDisplay := historyDisplay st;
     calculationHistoryList := calculationHistoryList st;
     localStorage := localStorage st |}.

Definition set_history (v : JSValue) (st : State) : State :=
  {| currentInput := currentInput st; operator := operator st;
     previousInput := previousInput st; history := v;
     waitingForSecondOperand := waitingForSecondOperand st;
     currentDisplay := currentDisplay st; historyDisplay := historyDisplay st;
     calculationHistoryList := calculationHistoryList st;
     localStorage := localStorage st |}.

Definition set_waitingForSecondOperand (v : bool) (st : State) : State :=
  {| currentInput := currentInput st; operator := operator st;
     previousInput := previousInput st; history := history st;
     waitingForSecondOperand := v;
     currentDisplay := currentDisplay st; historyDisplay := historyDisplay st;
     calculationHistoryList := calculationHistoryList st;
     localStorage := localStorage st |}.

Definition set_currentDisplay (v : string) (st : State) : State :=
  {| currentInput := currentInput st; operator := operator st;
     previousInput := previousInput st; history := history st;
     waitingForSecondOperand := waitingForSecondOperand st;
     currentDisplay := v; historyDisplay := historyDisplay st;
     calculationHistoryList := calculationHistoryList st;
     localStorage := localStorage st |}.

Definition set_historyDisplay (v : string) (st : State) : State :=
  {| currentInput := currentInput st; operator := operator st;
     previousInput := previousInput st; history := history st;
     waitingForSecondOperand := waitingForSecondOperand st;
     currentDisplay := currentDisplay st; historyDisplay := v;
     calculationHistoryList := calculationHistoryList st;
     localStorage := localStorage st |}.

Definition set_calculationHistoryList (v : list Node) (st : State) : State :=
  {| currentInput := currentInput st; operator := operator st;
     previousInput := previousInput st; history := history st;
     waitingForSecondOperand := waitingForSecondOperand st;
     currentDisplay := currentDisplay st; historyDisplay := historyDisplay st;
     calculationHistoryList := v;
     localStorage := localStorage st |}.

Definition set_localStorage (v : gmap string string) (st : State) : State :=
  {| currentInput := currentInput st; operator := operator st;
     previousInput := previousInput st; history := history st;
     waitingForSecondOperand := waitingForSecondOperand st;
     currentDisplay := currentDisplay st; historyDisplay := historyDisplay st;
     calculationHistoryList := calculationHistoryList st;
     localStorage := v |}.

(** How a function of the script ends: normally, or by an exception
    that leaves it; either way in some state. *)
Inductive Outcome : Type :=
  | Done (st : State)
  | Throw (e : Exn) (st : State).

Definition state_of (o : Outcome) : State :=
  match o with
  | Done st => st
  | Throw _ st => st
  end.

Definition and_then (o : Outcome) (k : State -> Outcome) : Outcome :=
  match o with
  | Done st => k st
  | Throw e st => Throw e st
  end.

Notation "o >>= k" := (and_then o k) (at level 50, left associativity).

(** ** The history *)

Definition historyKey : string := "calculatorHistory".

(** The object [{ expression, result }] of two strings. *)
Definition entry (expression result : string) : JSValue :=
  JObj (("expression", JStr expression) :: ("result", JStr result) :: nil).

Definition saveHistory (st : State) : State :=
  set_localStorage
    (<[historyKey := JSON.stringify (history st)]> (localStorage st)) st.

(** ToString of a parsed value, [None] for the TypeError of an object
    whose own [toString] property hides the inherited method.  An array
    joins its elements with commas, [null] elements as empty text. *)
Fixpoint text_of (v : JSValue) : option string :=
  match v with
  | JNull => Some "null"
  | JBool true => Some "true"
  | JBool false => Some "false"
  | JNum x => Some (Num.to_string x)
  | JStr s => Some s
  | JArr items =>
      option_map (Str.join ",")
        ((fix each (l : list JSValue) : option (list string) :=
            match l with
            | nil => Some nil
            | x :: r =>
                match match x with JNull => Some "" | _ => text_of x end, each r with
                | Some a, Some b => Some (a :: b)
                | _, _ => None
                end
            end) items)
  | JObj props => if Obj.has "toString" props then None else Some "[object Object]"
  end.

Definition placeholder : string :=
  "<li style=" ++ JSON.dq ++ "text-align: center; color: #888;" ++ JSON.dq
    ++ ">No history yet.</li>".

(** The [innerHTML] given to the [li] of one item, [None] where building
    it throws a TypeError: [item.expression] must be a string to have a
    [split], and [item.result] must convert to a string. *)
Definition item_html (item : JSValue) : option string :=
  match item with
  | JObj props =>
      match Obj.get "expression" props with
      | Some (JStr expression) =>
          let head := Str.trim (Str.before "=" expression) in
          match match Obj.get "result" props with
                | Some r => text_of r
                | None => Some "undefined"
                end with
          | Some result =>
              Some ("<span class=" ++ JSON.dq ++ "expression" ++ JSON.dq ++ ">"
                      ++ head ++ "</span><span class=" ++ JSON.dq ++ "result"
                      ++ JSON.dq ++ ">= " ++ result ++ "</span>")
          | None => None
          end
      | _ => None
      end
  | _ => None
  end.

(** [history.forEach(item => ...)] over an array. *)
Fixpoint render_items (items : list JSValue) (st : State) : Outcome :=
  match items with
  | nil => Done st
  | item :: r =>
      match item_html item with
      | Some html =>
          render_items r
            (set_calculationHistoryList
               (calculationHistoryList st ++ Li html :: nil)%list st)
      | None => Throw TypeError st
      end
  end.

Definition renderHistory (st : State) : Outcome :=
  let st1 := set_calculationHistoryList nil st in
  let empty := Done (set_calculationHistoryList (Markup placeholder :: nil) st1) in
  match history st with
  | JArr nil => empty
  | JArr items => render_items items st1
  | JStr s => if String.eqb s "" then empty else Throw TypeError st1
  | JObj props =>
      match Obj.get "length" props with
      | Some (JNum x) => if Num.eqb x Num.zero then empty else Throw TypeError st1
      | _ => Throw TypeError st1
      end
  | _ => Throw TypeError st1
  end.

Definition loadHistory (st : State) : Outcome :=
  match localStorage st !! historyKey with
  | Some storedHistory =>
      if String.eqb storedHistory "" then Done st
      else match JSON.parse storedHistory with
           | Some v => renderHistory (set_history v st)
           | None => Throw SyntaxError st
           end
  | None => Done st
  end.

Definition addToHistory (expression : string) (result : Prim) (st : State) : Outcome :=
  match history st with
  | JArr items =>
      let items1 := entry expression (ToString result) :: items in
      let items2 :=
        if (10 <? length items1)%nat then removelast items1 else items1 in
      renderHistory (saveHistory (set_history (JArr items2) st))
  | _ => Throw TypeError st
  end.

Definition clearAllHistory (st : State) : Outcome :=
  renderHistory (saveHistory (set_history (JArr nil) st)).

(** ** The calculator *)

Definition updateDisplay (st : State) : State :=
  set_historyDisplay
    (ToString (previousInput st)
       ++ match operator st with
          | Some o => " " ++ symbol o
          | None => ""
          end)
    (set_currentDisplay (currentInput st) st).

Definition appendNumber (number : string) (st : State) : State :=
  updateDisplay
    (if waitingForSecondOperand st
     then set_waitingForSecondOperand false (set_currentInput number st)
     else set_currentInput
            (if String.eqb (currentInput st) "0" then number
             else currentInput st ++ number) st).

Definition appendDecimal (st : State) : State :=
  updateDisplay
    (if waitingForSecondOperand st
     then set_waitingForSecondOperand false (set_currentInput "0." st)
     else if negb (Str.includes "." (currentInput st))
     then set_currentInput (currentInput st ++ ".") st
     else st).

Definition performCalculation (o : Operator) (firstOperand secondOperand : Num.t) : Prim :=
  match o with
  | Divide =>
      if Num.neqb secondOperand Num.zero
      then PNum (Num.div firstOperand secondOperand)
      else PStr "Error"
  | Multiply => PNum (Num.mul firstOperand secondOperand)
  | Add => PNum (Num.add firstOperand secondOperand)
  | Subtract => PNum (Num.sub firstOperand secondOperand)
  end.

Definition is_empty_string (v : Prim) : bool :=
  match v with
  | PStr s => String.eqb s ""
  | PNum _ => false
  end.

(** The text [`${previousInput} ${operator} ${currentInput} = ${calculation}`]. *)
Definition expression_of (o : Operator) (calculation : Prim) (st : State) : string :=
  ToString (previousInput st) ++ " " ++ symbol o ++ " " ++ currentInput st
    ++ " = " ++ ToString calculation.

Section Engine.

(** The table the two resolving functions look the operator up in. *)
Variable table : Operator -> Num.t -> Num.t -> Prim.

Definition handleOperatorWith (nextOperator : Operator) (st : State) : Outcome :=
  let inputValue := Num.parseFloat (currentInput st) in
  let close (st : State) : Outcome :=
    Done (updateDisplay
            (set_operator (Some nextOperator)
               (set_waitingForSecondOperand true st))) in
  match operator st, waitingForSecondOperand st with
  | Some _, true =>
      Done (set_historyDisplay
              (ToString (previousInput st) ++ " " ++ symbol nextOperator)
              (set_operator (Some nextOperator) st))
  | _, _ =>
      if is_empty_string (previousInput st) then
        close (set_previousInput (PNum inputValue) st)
      else
        match operator st with
        | Some o =>
            let calculation := table o (parseFloat (previousInput st)) inputValue in
            addToHistory (expression_of o calculation st) calculation st
            >>= fun st1 =>
                  close (set_previousInput calculation
                           (set_currentInput (ToString calculation) st1))
        | None => close st
        end
  end.

Definition calculateResultWith (st : State) : Outcome :=
  match operator st, waitingForSecondOperand st with
  | Some o, false =>
      let inputValue := Num.parseFloat (currentInput st) in
      let calculation := table o (parseFloat (previousInput st)) inputValue in
      addToHistory (expression_of o calculation st) calculation st
      >>= fun st1 =>
            Done (updateDisplay
                    (set_waitingForSecondOperand false
                       (set_previousInput (PStr "")
                          (set_operator None
                             (set_currentInput (ToString calculation) st1)))))
  | _, _ => Done st
  end.

End Engine.

Definition handleOperator : Operator -> State -> Outcome :=
  handleOperatorWith performCalculation.

Definition calculateResult : State -> Outcome :=
  calculateResultWith performCalculation.

Definition clearCalculator (st : State) : State :=
  updateDisplay
    (set_waitingForSecondOperand false
       (set_previousInput (PStr "")
          (set_operator None (set_currentInput "0" st)))).

Definition toggleNegative (st : State) : State :=
  updateDisplay
    (set_currentInput
       (Num.to_string (Num.mul (Num.parseFloat (currentInput st)) (Num.of_Z (-1))))
       st).

Definition calculatePercentage (st : State) : State :=
  updateDisplay
    (set_currentInput
       (Num.to_string (Num.div (Num.parseFloat (currentInput st)) (Num.of_Z 100)))
       st).

(** ** Buttons *)

Inductive Digit : Type :=
  | D0 | D1 | D2 | D3 | D4 | D5 | D6 | D7 | D8 | D9.

Definition digit_text (d : Digit) : string :=
  match d with
  | D0 => "0" | D1 => "1" | D2 => "2" | D3 => "3" | D4 => "4"
  | D5 => "5" | D6 => "6" | D7 => "7" | D8 => "8" | D9 => "9"
  end.

(** Modelled from the spec: the markup that gives the buttons their
    classes, actions and text is not among the sources.  The buttons are
    the seven actions of the specification, a number button carrying one
    decimal digit. *)
Inductive Button : Type :=
  | BNumber (d : Digit)
  | BDecimal
  | BOperator (o : Operator)
  | BEquals
  | BClear
  | BNegative
  | BPercent.

(** The click listener of the button grid. *)
Definition click (b : Button) (st : State) : Outcome :=
  match b with
  | BNumber d => Done (appendNumber (digit_text d) st)
  | BOperator o => handleOperator o st
  | BNegative => Done (toggleNegative st)
  | BPercent => Done (calculatePercentage st)
  | BDecimal => Done (appendDecimal st)
  | BClear => Done (clearCalculator st)
  | BEquals => calculateResult st
  end.

(** A listener that throws leaves the page in the state it had reached;
    the next click starts from there. *)
Definition press (st : State) (b : Button) : State := state_of (click b st).

Definition presses (bs : list Button) (st : State) : State :=
  fold_left press bs st.

(** The variables as declared (lines 8 to 12), on a page with the given
    storage.  What the two display elements and the history list hold
    before the script runs is written in the markup, not in the script:
    here they are empty, and [page] below leaves them open. *)
Definition fresh (storage : gmap string string) : State :=
  {| currentInput := "0"; operator := None; previousInput := PStr "";
     history := JArr nil; waitingForSecondOperand := false;
     currentDisplay := ""; historyDisplay := "";
     calculationHistoryList := nil; localStorage := storage |}.

(** The body of the DOMContentLoaded listener after its declarations:
    [loadHistory(); updateDisplay();]. *)
Definition start (storage : gmap string string) : Outcome :=
  loadHistory (fresh storage) >>= fun st => Done (updateDisplay st).

(** The same on any markup: the variables as declared, the two display
    elements and the history list holding whatever the document gave
    them. *)
Definition page (current upper : string) (items : list Node)
           (storage : gmap string string) : State :=
  {| currentInput := "0"; operator := None; previousInput := PStr "";
     history := JArr nil; waitingForSecondOperand := false;
     currentDisplay := current; historyDisplay := upper;
     calculationHistoryList := items; localStorage := storage |}.

Definition start_on (st : State) : Outcome :=
  loadHistory st >>= fun st => Done (updateDisplay st).

(** The history as the script itself builds it: an array of
    [{ expression, result }] objects, here given by their two strings,
    newest first. *)
Definition log (l : list (string * string)) : JSValue :=
  JArr (List.map (fun e => entry (fst e) (snd e)) l).

(** The [li] that [renderHistory] appends for such an object. *)
Definition li_of (e : string * string) : Node :=
  Li ("<span class=" ++ JSON.dq ++ "expression" ++ JSON.dq ++ ">"
        ++ Str.trim (Str.before "=" (fst e)) ++ "</span><span class="
        ++ JSON.dq ++ "result" ++ JSON.dq ++ ">= " ++ snd e ++ "</span>").

(** What the list shows for a log. *)
Definition shown (l : list (string * string)) : list Node :=
  match l with
  | nil => Markup placeholder :: nil
  | _ => List.map li_of l
  end.

(** [unshift] followed by the conditional [pop], on the two strings. *)
Definition pushed (e : string * string) (l : list (string * string))
  : list (string * string) :=
  if (10 <? length (e :: l))%nat then removelast (e :: l) else e :: l.



(** States the page can be in: after the start on some storage, after
    any click on one of the buttons, and after a click on the
    clear-history button. *)
Inductive reachable : State -> Prop :=
  | reach_start (storage : gmap string string) :
      reachable (state_of (start storage))
  | reach_press (st : State) (b : Button) :
      reachable st -> reachable (press st b)
  | reach_clear (st : State) :
      reachable st -> reachable (state_of (clearAllHistory st)).

(** The digits of a run of number buttons, as text. *)
Fixpoint digits_text (ds : list Digit) : string :=
  match ds with
  | nil => ""
  | d :: r => digit_text d ++ digits_text r
  end.

(** The same without the zeros pressed before the first other digit. *)
Fixpoint typed (ds : list Digit) : string :=
  match ds with
  | nil => ""
  | D0 :: r => typed r
  | _ :: _ => digits_text ds
  end.

(** What the display holds after the run: the ["0"] it started with
    until a non-zero digit arrives, from then on the digits pressed. *)
Definition entered (ds : list Digit) : string :=
  if String.eqb (typed ds) "" then "0" else typed ds.

(** Text that [JSON.stringify] writes between its quotes as it is:
    printable ASCII other than the quote and the backslash. *)
Definition plain_char (c : ascii) : bool :=
  let n := Str.code c in
  (32 <=? n) && (n <=? 126) && negb (n =? 34) && negb (n =? 92).

Fixpoint plain (s : string) : bool :=
  match s with
  | EmptyString => true
  | String c r => plain_char c && plain r
  end.

(** A log whose expressions and results are such text. *)
Definition plain_log (l : list (string * string)) : Prop :=
  Forall (fun e => plain (fst e) = true /\ plain (snd e) = true) l.

(** The double quote, and the tokens [JSON.stringify] writes a log in. *)
Definition dqc : ascii := Str.chr 34.

(** The tokens of one record, last first. *)
Definition entry_tokens (e : string * string) : list JSON.Token :=
  JSON.TRBrace :: JSON.TStr (snd e) :: JSON.TColon :: JSON.TStr "result"
    :: JSON.TComma :: JSON.TStr (fst e) :: JSON.TColon
    :: JSON.TStr "expression" :: JSON.TLBrace :: nil.

(** The tokens of the records of a log with the commas between them,
    last first. *)
Fixpoint entries_tokens (l : list (string * string)) : list JSON.Token :=
  match l with
  | nil => nil
  | e :: nil => entry_tokens e
  | e :: r => (entries_tokens r ++ JSON.TComma :: entry_tokens e)%list
  end.

(** The tokens of a log, in order. *)
Definition log_tokens (l : list (string * string)) : list JSON.Token :=
  (JSON.TLBrack :: List.rev (entries_tokens l) ++ JSON.TRBrack :: nil)%list.

(** States of a page that started without a stored history and has
    since seen clicks on the buttons, clicks on the clear-history button,
    and reloads on the storage it had written. *)
Inductive session : State -> Prop :=
  | session_start (storage : gmap string string) :
      storage !! historyKey = None ->
      session (state_of (start storage))
  | session_press (st : State) (b : Button) :
      session st -> session (press st b)
  | session_clear (st : State) :
      session st -> session (state_of (clearAllHistory st))
  | session_reload (st : State) :
      session st -> session (state_of (start (localStorage st))).

(** The storage holds the text of the log, or nothing while the log is
    still the empty one it was declared as. *)
Definition stored (l : list (string * string)) (st : State) : Prop :=
  localStorage st !! historyKey = Some (JSON.stringify (log l))
  \/ (l = nil /\ localStorage st !! historyKey = None).

(** What every state of a session satisfies. *)
Definition kept (st : State) : Prop :=
  plain (currentInput st) = true
  /\ plain (ToString (previousInput st)) = true
  /\ exists l : list (string * string),
      history st = log l /\ plain_log l /\ (length l <= 10)%nat /\ stored l st.

(** The two displays show what [updateDisplay] would write. *)
Definition synced (st : State) : Prop :=
  currentDisplay st = currentInput st
  /\ historyDisplay st
     = ToString (previousInput st)
         ++ match operator st with
            | Some o => " " ++ symbol o
            | None => ""
            end.

(** The clicks that reach [addToHistory]: equals, or an operator, with
    an operator selected and a second operand typed (and, for an
    operator, a previous input that is not the empty string). *)
Definition resolves (b : Button) (st : State) : bool :=
  match b, operator st with
  | BEquals, Some _ => negb (waitingForSecondOperand st)
  | BOperator _, Some _ =>
      negb (waitingForSecondOperand st)
      && negb (is_empty_string (previousInput st))
  | _, _ => false
  end.

(** The buttons that only edit the entry. *)
Definition edits (b : Button) : bool :=
  match b with
  | BNumber _ | BDecimal | BNegative | BPercent | BClear => true
  | BOperator _ | BEquals => false
  end.

(** How the operator, the previous input and the flag go together. *)
Definition coupled (st : State) : Prop :=
  (operator st = None <-> previousInput st = PStr "")
  /\ (waitingForSecondOperand st = true -> operator st <> None)
  /\ ((exists x, previousInput st = PNum x) \/ previousInput st = PStr ""
      \/ previousInput st = PStr "Error").

(** Whether a value has the array methods [unshift] and [pop]. *)
Definition is_array (v : JSValue) : bool :=
  match v with
  | JArr _ => true
  | _ => false
  end.

(** Text without blanks and without the equals sign: printable ASCII
    from ['!'] to ['~'] other than ['=']. *)
Definition solid_char (c : ascii) : bool :=
  let n := Str.code c in (33 <=? n) && (n <=? 126) && negb (n =? 61).

Fixpoint solid (s : string) : bool :=
  match s with
  | EmptyString => true
  | String c r => solid_char c && solid r
  end.

(** The record of a calculation, from its left-hand side and the text of
    its result. *)
Definition record_of (p : string * string) : string * string :=
  (fst p ++ " = " ++ snd p, snd p).

(** The list item that shows a left-hand side and a result. *)
Definition item (p : string * string) : Node :=
  Li ("<span class=" ++ JSON.dq ++ "expression" ++ JSON.dq ++ ">"
        ++ fst p ++ "</span><span class="
        ++ JSON.dq ++ "result" ++ JSON.dq ++ ">= " ++ snd p ++ "</span>").

(** What the list shows for calculations given by left-hand side and
    result. *)
Definition shown_items (ps : list (string * string)) : list Node :=
  match ps with
  | nil => Markup placeholder :: nil
  | _ => List.map item ps
  end.

(** The left-hand side [previousInput operator currentInput] of the
    expression text. *)
Definition lhs_of (o : Operator) (st : State) : string :=
  ToString (previousInput st) ++ " " ++ symbol o ++ " " ++ currentInput st.

(** The entry is non-empty text without blanks or equals signs, and so
    is the text of the previous input unless that is empty. *)
Definition firm (st : State) : Prop :=
  solid (currentInput st) = true /\ currentInput st <> ""
  /\ solid (ToString (previousInput st)) = true.

(** The history is made of calculations whose left-hand sides the list
    shows in full, and the list shows them, or has not been drawn yet
    while there are none. *)
Definition listed (ps : list (string * string)) (st : State) : Prop :=
  history st = log (List.map record_of ps)
  /\ Forall (fun p => Str.trim (Str.before "=" (fst (record_of p))) = fst p) ps
  /\ (calculationHistoryList st = shown_items ps
      \/ (ps = nil /\ calculationHistoryList st = nil)).

(** * Properties *)

(** ** Text *)

Module StrFacts.

Lemma append_cons (a : ascii) (s t : string) :
  String a s ++ t = String a (s ++ t).
Proof. reflexivity. Qed.

Lemma append_nil_l (s : string) : "" ++ s = s.
Proof. reflexivity. Qed.

Lemma append_nil_r (s : string) : s ++ "" = s.
Proof.
  induction s as [|a s IH]; [reflexivity |].
  now rewrite append_cons, IH.
Qed.

Lemma append_assoc (a b c : string) : (a ++ b) ++ c = a ++ (b ++ c).
Proof.
  induction a as [|x a IH]; [reflexivity |].
  now rewrite !append_cons, IH.
Qed.

Lemma count_app (c : ascii) (a b : string) :
  Str.count c (a ++ b) = (Str.count c a + Str.count c b)%nat.
Proof.
  induction a as [|x a IH]; [reflexivity |].
  rewrite append_cons. simpl. rewrite IH. lia.
Qed.

Lemma includes_false_count (c : ascii) (s : string) :
  Str.includes c s = false -> Str.count c s = O.
Proof.
  induction s as [|a s IH]; simpl; [reflexivity |].
  destruct (Ascii.eqb a c); simpl; [discriminate | exact IH].
Qed.

Lemma count_take_drop (c : ascii) (n : nat) (s : string) :
  (Str.count c (Str.take n s) + Str.count c (Str.drop n s))%nat = Str.count c s.
Proof.
  revert s; induction n as [|n IH]; intros [|a s]; simpl; try reflexivity.
  rewrite <- (IH s). lia.
Qed.

Lemma count_zeros (n : nat) : Str.count "." (Str.zeros n) = O.
Proof. induction n as [|n IH]; simpl; [reflexivity | exact IH]. Qed.

Lemma count_uint (u : Decimal.uint) :
  Str.count "." (NilEmpty.string_of_uint u) = O.
Proof. induction u; simpl; auto. Qed.

Lemma count_dec_string (z : Z) : Str.count "." (Num.dec_string z) = O.
Proof.
  unfold Num.dec_string, NilZero.string_of_uint.
  destruct (N.to_uint (Z.to_N z)) eqn:E; try reflexivity;
    rewrite <- E; apply count_uint.
Qed.

Lemma count_digit_text (d : Digit) : Str.count "." (digit_text d) = O.
Proof. destruct d; reflexivity. Qed.

End StrFacts.

(** ** Number to text *)

Module NumFacts.

Import StrFacts.

(** The text of a number has at most one decimal point. *)
Lemma format_decimal_point (s n : Z) :
  (Str.count "." (Num.format_decimal s n) <= 1)%nat.
Proof.
  unfold Num.format_decimal.
  set (ds := Num.dec_string s).
  assert (Hds : Str.count "." ds = O) by apply count_dec_string.
  pose proof (count_take_drop "." 1 ds) as H1.
  pose proof (count_take_drop "." (Z.to_nat n) ds) as Hn.
  set (t1 := Str.take 1 ds) in *. set (d1 := Str.drop 1 ds) in *.
  set (tn := Str.take (Z.to_nat n) ds) in *.
  set (dn := Str.drop (Z.to_nat n) ds) in *.
  clearbody t1 d1 tn dn.
  repeat match goal with |- context [if ?b then _ else _] => destruct b end;
    repeat rewrite count_app; simpl;
    rewrite ?count_zeros, ?count_dec_string, ?Hds; lia.
Qed.

Lemma to_string_pos_point (m : positive) (e : Z) :
  (Str.count "." (Num.to_string_pos m e) <= 1)%nat.
Proof.
  unfold Num.to_string_pos.
  destruct (Num.frac_of m e) as [num den].
  destruct (Num.shortest _ _ _ _ _ _) as [s n'].
  apply format_decimal_point.
Qed.

Lemma to_string_point (x : Num.t) :
  (Str.count "." (Num.to_string x) <= 1)%nat.
Proof.
  destruct x as [s|s| |s m e]; simpl; try (destruct s; simpl; lia); try lia.
  destruct s.
  - rewrite count_app. simpl. apply to_string_pos_point.
  - apply to_string_pos_point.
Qed.

(** A non-zero divisor is one [!== 0] holds of. *)
Lemma neqb_zero (b : Num.t) :
  (forall s, b <> S754_zero s) -> Num.neqb b Num.zero = true.
Proof.
  intros H. destruct b as [s|s| |s m e]; try reflexivity.
  - destruct (H s eq_refl).
  - destruct s; reflexivity.
  - destruct s; reflexivity.
Qed.

End NumFacts.

(** ** Rendering and recording *)

Module HistoryFacts.

Lemma set_list_same (st : State) :
  set_calculationHistoryList (calculationHistoryList st) st = st.
Proof. destruct st; reflexivity. Qed.

(** Rendering writes to the list element and to nothing else, however
    it ends. *)
Lemma render_items_frame (items : list JSValue) (st : State) :
  exists l, state_of (render_items items st) = set_calculationHistoryList l st.
Proof.
  revert st; induction items as [|item r IH]; intros st; simpl.
  - exists (calculationHistoryList st). now rewrite set_list_same.
  - destruct (item_html item) as [html|].
    + destruct (IH (set_calculationHistoryList
                      (calculationHistoryList st ++ Li html :: nil)%list st))
        as [l Hl].
      exists l. rewrite Hl. reflexivity.
    + exists (calculationHistoryList st). simpl. now rewrite set_list_same.
Qed.

Lemma renderHistory_frame (st : State) :
  exists l, state_of (renderHistory st) = set_calculationHistoryList l st.
Proof.
  unfold renderHistory.
  destruct (history st) as [|b|x|s|items|props]; simpl;
    try (eexists; reflexivity).
  - destruct (String.eqb s ""); eexists; reflexivity.
  - destruct items as [|item r]; [eexists; reflexivity |].
    destruct (render_items_frame (item :: r) (set_calculationHistoryList nil st))
      as [l Hl].
    exists l. rewrite Hl. reflexivity.
  - destruct (Obj.get "length" props) as [[|b|x|s|items|props']|];
      try (eexists; reflexivity).
    destruct (Num.eqb x Num.zero); eexists; reflexivity.
Qed.

Lemma item_html_entry (e : string * string) :
  item_html (entry (fst e) (snd e)) =
  match li_of e with Li html => Some html | Markup _ => None end.
Proof. reflexivity. Qed.

(** A log renders without an exception. *)
Lemma render_items_log (l : list (string * string)) (st : State) :
  render_items (List.map (fun e => entry (fst e) (snd e)) l) st =
  Done (set_calculationHistoryList
          (calculationHistoryList st ++ List.map li_of l)%list st).
Proof.
  revert st; induction l as [|e r IH]; intros st.
  - simpl. rewrite app_nil_r. now rewrite set_list_same.
  - cbn [List.map render_items]. rewrite item_html_entry.
    cbn [li_of]. rewrite IH. f_equal.
    cbn [calculationHistoryList set_calculationHistoryList].
    rewrite <- app_assoc. reflexivity.
Qed.

Lemma renderHistory_log (l : list (string * string)) (st : State) :
  history st = log l ->
  renderHistory st = Done (set_calculationHistoryList (shown l) st).
Proof.
  intros H. unfold renderHistory. rewrite H. unfold log.
  destruct l as [|e r]; [reflexivity |].
  change (List.map (fun e0 => entry (fst e0) (snd e0)) (e :: r))
    with (entry (fst e) (snd e) :: List.map (fun e0 => entry (fst e0) (snd e0)) r).
  change (entry (fst e) (snd e) :: List.map (fun e0 => entry (fst e0) (snd e0)) r)
    with (List.map (fun e0 => entry (fst e0) (snd e0)) (e :: r)).
  rewrite render_items_log. reflexivity.
Qed.

Lemma removelast_map {A B : Type} (f : A -> B) (l : list A) :
  removelast (List.map f l) = List.map f (removelast l).
Proof.
  induction l as [|a [|b r] IH]; try reflexivity.
  change (f a :: removelast (List.map f (b :: r)) = f a :: List.map f (removelast (b :: r))).
  now rewrite IH.
Qed.

(** On a log, [addToHistory] records, saves and renders, and returns. *)
Lemma addToHistory_log (expression : string) (result : Prim)
      (l : list (string * string)) (st : State) :
  history st = log l ->
  addToHistory expression result st =
  Done (set_calculationHistoryList
          (shown (pushed (expression, ToString result) l))
          (saveHistory
             (set_history (log (pushed (expression, ToString result) l)) st))).
Proof.
  intros H. unfold addToHistory. rewrite H. unfold log at 1.
  set (e := (expression, ToString result)).
  assert (E : JArr (if (10 <? length (entry expression (ToString result)
                                       :: List.map (fun e0 => entry (fst e0) (snd e0)) l))%nat
                    then removelast (entry expression (ToString result)
                                       :: List.map (fun e0 => entry (fst e0) (snd e0)) l)
                    else entry expression (ToString result)
                           :: List.map (fun e0 => entry (fst e0) (snd e0)) l)
              = log (pushed e l)).
  { unfold log, pushed.
    change (entry expression (ToString result)
              :: List.map (fun e0 => entry (fst e0) (snd e0)) l)
      with (List.map (fun e0 => entry (fst e0) (snd e0)) (e :: l)).
    rewrite length_map.
    destruct (10 <? length (e :: l))%nat; [now rewrite removelast_map | reflexivity]. }
  rewrite E. apply renderHistory_log. reflexivity.
Qed.

(** However [addToHistory] ends, it has left the calculator's own
    variables and the two displays alone. *)
Lemma addToHistory_frame (expression : string) (result : Prim) (st : State) :
  let st' := state_of (addToHistory expression result st) in
  currentInput st' = currentInput st /\ operator st' = operator st
  /\ previousInput st' = previousInput st
  /\ waitingForSecondOperand st' = waitingForSecondOperand st
  /\ currentDisplay st' = currentDisplay st
  /\ historyDisplay st' = historyDisplay st.
Proof.
  unfold addToHistory.
  destruct (history st) as [|b|x|s|items|props]; simpl; try tauto.
  match goal with
  | |- context [renderHistory ?s] => destruct (renderHistory_frame s) as [l Hl]
  end.
  rewrite Hl. simpl. tauto.
Qed.

Lemma pushed_firstn (e : string * string) (l : list (string * string)) :
  (length l <= 10)%nat -> pushed e l = firstn 10 (e :: l).
Proof.
  intros H. unfold pushed.
  destruct (10 <? length (e :: l))%nat eqn:E.
  - apply Nat.ltb_lt in E. simpl in E.
    rewrite removelast_firstn_len. f_equal. simpl. lia.
  - apply Nat.ltb_ge in E. symmetry. apply firstn_all2. exact E.
Qed.


(** After the start, the calculator's variables are as declared. *)
Lemma start_vars (storage : gmap string string) :
  let st := state_of (start storage) in
  currentInput st = "0" /\ operator st = None /\ previousInput st = PStr ""
  /\ waitingForSecondOperand st = false.
Proof.
  unfold start, loadHistory. cbn [fresh localStorage].
  destruct (storage !! historyKey) as [s|]; [|simpl; tauto].
  destruct (String.eqb s ""); [simpl; tauto |].
  destruct (JSON.parse s) as [v|]; [|simpl; tauto].
  destruct (renderHistory_frame (set_history v (fresh storage))) as [l Hl].
  destruct (renderHistory (set_history v (fresh storage))) as [st1|e st1];
    simpl in Hl; subst st1; simpl; tauto.
Qed.

End HistoryFacts.

(** ** The evaluator *)

(** C2.  Dividing by zero, of either sign, gives the ['Error'] marker
    whatever the dividend; dividing by anything else gives the IEEE
    quotient; and for every operator the result is the marker in that one
    case and otherwise the number the operator's arithmetic gives for the
    two operands.  The evaluator takes no state and returns none. *)
Theorem performCalculation_divide :
  (forall (x : Num.t) (s : bool),
      performCalculation Divide x (S754_zero s) = PStr "Error")
  /\ (forall a b : Num.t,
         (forall s, b <> S754_zero s) ->
         performCalculation Divide a b = PNum (Num.div a b))
  /\ (forall (o : Operator) (a b : Num.t),
         (o = Divide /\ (exists s, b = S754_zero s)
          /\ performCalculation o a b = PStr "Error")
         \/ performCalculation o a b =
            PNum match o with
                 | Divide => Num.div a b
                 | Multiply => Num.mul a b
                 | Add => Num.add a b
                 | Subtract => Num.sub a b
                 end).
Proof.
  split; [|split].
  - intros x s. reflexivity.
  - intros a b H. unfold performCalculation.
    now rewrite (NumFacts.neqb_zero b H).
  - intros o a b. destruct o; try (right; reflexivity).
    destruct b as [s|s| |s m e].
    + left. split; [reflexivity |]. split; [now exists s | reflexivity].
    + right. unfold performCalculation.
      rewrite NumFacts.neqb_zero; [reflexivity | intros s'; discriminate].
    + right. reflexivity.
    + right. unfold performCalculation.
      rewrite NumFacts.neqb_zero; [reflexivity | intros s'; discriminate].
Qed.

Lemma performCalculation_divide_witness :
  performCalculation Divide (Num.of_Z 8) (Num.of_Z 2) = PNum (Num.of_Z 4).
Proof.
  rewrite (proj1 (proj2 performCalculation_divide) (Num.of_Z 8) (Num.of_Z 2)).
  - reflexivity.
  - intros s; discriminate.
Defined.

(** ** Sign and percent *)

(** C10.  [toggleNegative] and [calculatePercentage] leave the operator,
    the previous input, the waiting flag and the history as they were;
    the storage and the history list are untouched as well. *)
Theorem toggleNegative_calculatePercentage_frame (st : State) :
  (operator (toggleNegative st) = operator st
   /\ previousInput (toggleNegative st) = previousInput st
   /\ waitingForSecondOperand (toggleNegative st) = waitingForSecondOperand st
   /\ history (toggleNegative st) = history st
   /\ localStorage (toggleNegative st) = localStorage st
   /\ calculationHistoryList (toggleNegative st) = calculationHistoryList st)
  /\ (operator (calculatePercentage st) = operator st
      /\ previousInput (calculatePercentage st) = previousInput st
      /\ waitingForSecondOperand (calculatePercentage st)
         = waitingForSecondOperand st
      /\ history (calculatePercentage st) = history st
      /\ localStorage (calculatePercentage st) = localStorage st
      /\ calculationHistoryList (calculatePercentage st)
         = calculationHistoryList st).
Proof. repeat split. Qed.

Lemma appendNumber_currentInput (number : string) (st : State) :
  currentInput (appendNumber number st) =
  if waitingForSecondOperand st then number
  else if String.eqb (currentInput st) "0" then number
       else currentInput st ++ number.
Proof. unfold appendNumber. destruct (waitingForSecondOperand st); reflexivity. Qed.

Lemma appendNumber_history (number : string) (st : State) :
  history (appendNumber number st) = history st.
Proof. unfold appendNumber. destruct (waitingForSecondOperand st); reflexivity. Qed.

Lemma appendNumber_waiting (number : string) (st : State) :
  waitingForSecondOperand (appendNumber number st) = false.
Proof.
  unfold appendNumber.
  destruct (waitingForSecondOperand st) eqn:E; [reflexivity | exact E].
Qed.

(** C8.  After the start, [5] then [%] shows ["0.05"] and [5] then
    [+/-] shows ["-5"]; in every state the percent button writes the text
    of the displayed number divided by 100 and the sign button the text
    of the displayed number times -1. *)
Theorem percent_and_sign_of_five (storage : gmap string string) :
  currentInput (presses (BNumber D5 :: BPercent :: nil) (state_of (start storage)))
  = "0.05"
  /\ currentInput (presses (BNumber D5 :: BNegative :: nil) (state_of (start storage)))
     = "-5"
  /\ (forall st,
         currentInput (calculatePercentage st) =
         Num.to_string (Num.div (Num.parseFloat (currentInput st)) (Num.of_Z 100)))
  /\ (forall st,
         currentInput (toggleNegative st) =
         Num.to_string (Num.mul (Num.parseFloat (currentInput st)) (Num.of_Z (-1)))).
Proof.
  destruct (HistoryFacts.start_vars storage) as (Hc & _ & _ & Hw).
  set (st0 := state_of (start storage)) in *.
  assert (H5 : currentInput (appendNumber "5" st0) = "5").
  { rewrite appendNumber_currentInput, Hw, Hc. reflexivity. }
  repeat split.
  - cbn [presses fold_left press click state_of digit_text].
    change (currentInput (calculatePercentage (appendNumber "5" st0)))
      with (Num.to_string
              (Num.div (Num.parseFloat (currentInput (appendNumber "5" st0)))
                       (Num.of_Z 100))).
    rewrite H5. vm_compute. reflexivity.
  - cbn [presses fold_left press click state_of digit_text].
    change (currentInput (toggleNegative (appendNumber "5" st0)))
      with (Num.to_string
              (Num.mul (Num.parseFloat (currentInput (appendNumber "5" st0)))
                       (Num.of_Z (-1)))).
    rewrite H5. vm_compute. reflexivity.
Qed.

(** ** Digits *)

Lemma digit_text_cons (d : Digit) :
  exists c, digit_text d = String c "".
Proof. destruct d; eexists; reflexivity. Qed.

Lemma digits_after (ds : list Digit) (st : State) :
  waitingForSecondOperand st = false ->
  currentInput st <> "0" -> currentInput st <> "" ->
  currentInput (presses (List.map BNumber ds) st)
  = currentInput st ++ digits_text ds.
Proof.
  revert st; induction ds as [|d r IH]; intros st Hw H0 He.
  - simpl. now rewrite StrFacts.append_nil_r.
  - cbn [List.map presses fold_left press click state_of].
    change (fold_left press (List.map BNumber r) (appendNumber (digit_text d) st))
      with (presses (List.map BNumber r) (appendNumber (digit_text d) st)).
    assert (Hc : currentInput (appendNumber (digit_text d) st)
                 = currentInput st ++ digit_text d).
    { rewrite appendNumber_currentInput, Hw.
      destruct (String.eqb_spec (currentInput st) "0"); [contradiction | reflexivity]. }
    rewrite IH.
    + rewrite Hc. cbn [digits_text]. apply StrFacts.append_assoc.
    + apply appendNumber_waiting.
    + rewrite Hc. destruct (currentInput st) as [|a [|b s]]; [contradiction | |].
      * destruct (digit_text_cons d) as [c ->]. discriminate.
      * destruct (digit_text_cons d) as [c ->]. discriminate.
    + rewrite Hc. destruct (currentInput st) as [|a s]; [contradiction |].
      discriminate.
Qed.

Lemma digits_from_zero (ds : list Digit) (st : State) :
  waitingForSecondOperand st = false ->
  currentInput st = "0" ->
  currentInput (presses (List.map BNumber ds) st) = entered ds.
Proof.
  revert st; induction ds as [|d r IH]; intros st Hw H0.
  - exact H0.
  - cbn [List.map presses fold_left press click state_of].
    change (fold_left press (List.map BNumber r) (appendNumber (digit_text d) st))
      with (presses (List.map BNumber r) (appendNumber (digit_text d) st)).
    assert (Hc : currentInput (appendNumber (digit_text d) st) = digit_text d).
    { rewrite appendNumber_currentInput, Hw, H0. reflexivity. }
    destruct d;
      try (rewrite digits_after;
           [ rewrite Hc; reflexivity
           | apply appendNumber_waiting
           | rewrite Hc; discriminate
           | rewrite Hc; discriminate ]).
    rewrite IH; [reflexivity | apply appendNumber_waiting | exact Hc].
Qed.

(** C7.  After the start, a run of digit buttons leaves in
    [currentInput] the digits pressed, in order, counted from the first
    that is not a zero; while only zeros have been pressed it stays
    ["0"].  So a run that begins with a non-zero digit leaves exactly the
    digits pressed, and a zero pressed first leaves what the rest of the
    run leaves. *)
Theorem digits_entered (storage : gmap string string) (ds : list Digit) :
  currentInput (presses (List.map BNumber ds) (state_of (start storage)))
  = entered ds
  /\ entered nil = "0"
  /\ (forall (d : Digit) (r : list Digit),
         entered (d :: r) = match d with
                            | D0 => entered r
                            | _ => digits_text (d :: r)
                            end).
Proof.
  split; [|split].
  - destruct (HistoryFacts.start_vars storage) as (Hc & _ & _ & Hw).
    apply digits_from_zero; assumption.
  - reflexivity.
  - intros d r. destruct d; reflexivity.
Qed.

(** ** The capped history *)




(** ** Clearing and loading *)

Lemma stringify_empty : JSON.stringify (JArr nil) = "[]".
Proof. reflexivity. Qed.

Lemma parse_empty : JSON.parse "[]" = Some (JArr nil).
Proof. vm_compute. reflexivity. Qed.

(** C9.  Whatever the state, [clearAllHistory] returns, and a start on
    the storage it leaves returns with the empty history. *)
Theorem clearAllHistory_then_load (st : State) :
  exists st1,
    clearAllHistory st = Done st1
    /\ history st1 = JArr nil
    /\ exists st2,
        loadHistory (fresh (localStorage st1)) = Done st2
        /\ history st2 = JArr nil
        /\ exists st3, start (localStorage st1) = Done st3
                       /\ history st3 = JArr nil.
Proof.
  unfold clearAllHistory.
  rewrite (HistoryFacts.renderHistory_log nil) by reflexivity.
  eexists. split; [reflexivity |]. split; [reflexivity |].
  cbn [localStorage set_calculationHistoryList saveHistory set_localStorage
       set_history history].
  rewrite stringify_empty.
  assert (L : loadHistory (fresh (<[historyKey:="[]"]> (localStorage st)))
              = Done (set_calculationHistoryList (shown nil)
                        (set_history (JArr nil)
                           (fresh (<[historyKey:="[]"]> (localStorage st)))))).
  { unfold loadHistory. cbn [fresh localStorage].
    rewrite lookup_insert_eq. cbn [String.eqb].
    change (String.eqb "[]" "") with false. cbv iota.
    rewrite parse_empty.
    apply (HistoryFacts.renderHistory_log nil). reflexivity. }
  eexists. split; [exact L |]. split; [reflexivity |].
  unfold start. rewrite L. eexists. split; reflexivity.
Qed.

(** ** Operators *)

Lemma handleOperatorWith_replace (table : Operator -> Num.t -> Num.t -> Prim)
      (op : Operator) (st : State) :
  operator st <> None -> waitingForSecondOperand st = true ->
  handleOperatorWith table op st =
  Done (set_historyDisplay (ToString (previousInput st) ++ " " ++ symbol op)
          (set_operator (Some op) st)).
Proof.
  intros Ho Hw. unfold handleOperatorWith. rewrite Hw.
  destruct (operator st); [reflexivity | contradiction].
Qed.

(** On a log, a second operator button pressed right after a first
    leaves what pressing the second alone would have left. *)
Lemma press_operator_twice (o1 o2 : Operator) (l : list (string * string))
      (st : State) :
  history st = log l ->
  press (press st (BOperator o1)) (BOperator o2) = press st (BOperator o2).
Proof.
  intros H. unfold press, click, handleOperator, handleOperatorWith.
  destruct (operator st) as [o|] eqn:Ho;
    destruct (waitingForSecondOperand st) eqn:Hw.
  - cbn [state_of operator waitingForSecondOperand set_operator
         set_historyDisplay].
    rewrite Hw. reflexivity.
  - destruct (is_empty_string (previousInput st)) eqn:He; [reflexivity |].
    rewrite !(HistoryFacts.addToHistory_log _ _ l st H). reflexivity.
  - destruct (is_empty_string (previousInput st)); reflexivity.
  - destruct (is_empty_string (previousInput st)); reflexivity.
Qed.

(** C4.  With an operator selected and the second operand still
    awaited, [handleOperator] returns with the operator replaced and the
    upper display rewritten, and with nothing else changed: not the
    current input, the previous input, the flag, the history, the list or
    the storage.  The result is the same for every dispatch table put in
    place of [performCalculation], so no entry of the table is used.
    Hence on a log the buttons [5 + + 3 =] leave the state that
    [5 + 3 =] leave. *)
Theorem handleOperator_twice :
  (forall (table : Operator -> Num.t -> Num.t -> Prim) (op : Operator) (st : State),
      operator st <> None -> waitingForSecondOperand st = true ->
      handleOperatorWith table op st = handleOperator op st
      /\ exists st',
          handleOperator op st = Done st'
          /\ operator st' = Some op
          /\ currentInput st' = currentInput st
          /\ previousInput st' = previousInput st
          /\ waitingForSecondOperand st' = true
          /\ history st' = history st
          /\ calculationHistoryList st' = calculationHistoryList st
          /\ localStorage st' = localStorage st
          /\ currentDisplay st' = currentDisplay st)
  /\ (forall (l : list (string * string)) (st : State),
         history st = log l ->
         presses (BNumber D5 :: BOperator Add :: BOperator Add
                    :: BNumber D3 :: BEquals :: nil) st
         = presses (BNumber D5 :: BOperator Add
                      :: BNumber D3 :: BEquals :: nil) st).
Proof.
  split.
  - intros table op st Ho Hw. unfold handleOperator.
    rewrite !handleOperatorWith_replace by assumption.
    split; [reflexivity |]. eexists. split; [reflexivity |].
    cbn. rewrite Hw. repeat split.
  - intros l st H. cbn [presses fold_left].
    rewrite (press_operator_twice Add Add l); [reflexivity |].
    change (press st (BNumber D5)) with (appendNumber "5" st).
    now rewrite appendNumber_history.
Qed.

Lemma handleOperator_twice_witness :
  presses (BNumber D5 :: BOperator Add :: BOperator Add
             :: BNumber D3 :: BEquals :: nil) (fresh ∅)
  = presses (BNumber D5 :: BOperator Add :: BNumber D3 :: BEquals :: nil) (fresh ∅).
Proof.
  apply (proj2 handleOperator_twice nil (fresh ∅)). reflexivity.
Defined.

(** ** Equals *)

Lemma calculateResult_log (o : Operator) (l : list (string * string)) (st : State) :
  operator st = Some o -> waitingForSecondOperand st = false ->
  history st = log l ->
  let calculation :=
    performCalculation o (parseFloat (previousInput st))
                       (Num.parseFloat (currentInput st)) in
  let expression :=
    ToString (previousInput st) ++ " " ++ symbol o ++ " " ++ currentInput st
      ++ " = " ++ ToString calculation in
  calculateResult st =
  Done (updateDisplay
          (set_waitingForSecondOperand false
             (set_previousInput (PStr "")
                (set_operator None
                   (set_currentInput (ToString calculation)
                      (set_calculationHistoryList
                         (shown (pushed (expression, ToString calculation) l))
                         (saveHistory
                            (set_history
                               (log (pushed (expression, ToString calculation) l))
                               st)))))))).
Proof.
  intros Ho Hw H. cbv zeta.
  unfold calculateResult, calculateResultWith. rewrite Ho, Hw.
  rewrite (HistoryFacts.addToHistory_log _ _ l st H). reflexivity.
Qed.

(** C5.  [calculateResult] returns the state unchanged when no operator
    is selected or the second operand is still awaited.  Otherwise, on a
    log, it evaluates the selected operator on [parseFloat(previousInput)]
    and [parseFloat(currentInput)], records the text
    [previousInput operator currentInput = result] with the text of the
    result in front of the log (the eleventh record dropped), writes the
    text of the result to [currentInput], and resets the operator, the
    previous input and the flag.  From a state as declared, [5 + 3 =]
    ends with ["8"] in [currentInput] and ["5 + 3 = 8"], ["8"] in front of
    the log. *)
Theorem calculateResult_spec :
  (forall st : State,
      operator st = None \/ waitingForSecondOperand st = true ->
      calculateResult st = Done st)
  /\ (forall (st : State) (o : Operator) (l : list (string * string)),
         operator st = Some o -> waitingForSecondOperand st = false ->
         history st = log l ->
         exists st',
           calculateResult st = Done st'
           /\ currentInput st'
              = ToString (performCalculation o (parseFloat (previousInput st))
                            (Num.parseFloat (currentInput st)))
           /\ operator st' = None
           /\ previousInput st' = PStr ""
           /\ waitingForSecondOperand st' = false
           /\ history st'
              = log (pushed
                       (ToString (previousInput st) ++ " " ++ symbol o ++ " "
                          ++ currentInput st ++ " = "
                          ++ ToString (performCalculation o
                                         (parseFloat (previousInput st))
                                         (Num.parseFloat (currentInput st))),
                        ToString (performCalculation o
                                    (parseFloat (previousInput st))
                                    (Num.parseFloat (currentInput st))))
                       l))
  /\ (forall (st : State) (l : list (string * string)),
         currentInput st = "0" -> operator st = None ->
         previousInput st = PStr "" -> waitingForSecondOperand st = false ->
         history st = log l ->
         let st' := presses (BNumber D5 :: BOperator Add :: BNumber D3
                               :: BEquals :: nil) st in
         currentInput st' = "8"
         /\ history st' = log (pushed ("5 + 3 = 8", "8") l)).
Proof.
  split; [|split].
  - intros st H. unfold calculateResult, calculateResultWith.
    destruct (operator st) as [o|]; [|reflexivity].
    destruct H as [H|H]; [discriminate | now rewrite H].
  - intros st o l Ho Hw H.
    rewrite (calculateResult_log o l st Ho Hw H).
    eexists. split; [reflexivity |]. repeat split.
  - intros st l Hc Ho Hp Hw H.
    destruct st as [cur op prev hist wait cd hd lst ls].
    cbn in Hc, Ho, Hp, Hw, H. subst cur op prev wait hist.
    cbv zeta. cbn [presses fold_left].
    unfold press, click. cbn [state_of digit_text].
    set (st3 := appendNumber "3" _).
    assert (E3 : currentInput st3 = "3" /\ operator st3 = Some Add
                 /\ waitingForSecondOperand st3 = false
                 /\ history st3 = log l
                 /\ previousInput st3 = PNum (Num.parseFloat "5")).
    { repeat split. }
    destruct E3 as (E3c & E3o & E3w & E3h & E3p).
    rewrite (calculateResult_log Add l st3 E3o E3w E3h).
    cbn [state_of updateDisplay currentInput history set_historyDisplay
         set_currentDisplay set_waitingForSecondOperand set_previousInput
         set_operator set_currentInput set_calculationHistoryList saveHistory
         set_localStorage set_history].
    rewrite E3c, E3p.
    assert (Ex : "5" ++ " " ++ symbol Add ++ " " ++ "3" ++ " = " ++ "8" = "5 + 3 = 8")
      by reflexivity.
    assert (Ev : performCalculation Add (parseFloat (PNum (Num.parseFloat "5")))
                                    (Num.parseFloat "3")
                 = PNum (Num.parseFloat "8")) by (vm_compute; reflexivity).
    assert (Et : ToString (PNum (Num.parseFloat "5")) = "5") by (vm_compute; reflexivity).
    assert (E8 : ToString (PNum (Num.parseFloat "8")) = "8") by (vm_compute; reflexivity).
    rewrite Ev, Et, E8, Ex. split; reflexivity.
Qed.

Lemma calculateResult_spec_witness :
  currentInput (presses (BNumber D5 :: BOperator Add :: BNumber D3
                           :: BEquals :: nil) (fresh ∅)) = "8"
  /\ history (presses (BNumber D5 :: BOperator Add :: BNumber D3
                         :: BEquals :: nil) (fresh ∅))
     = log (("5 + 3 = 8", "8") :: nil).
Proof.
  apply (proj2 (proj2 calculateResult_spec) (fresh ∅) nil); reflexivity.
Defined.

(** ** The decimal point *)

Lemma appendDecimal_currentInput (st : State) :
  currentInput (appendDecimal st) =
  if waitingForSecondOperand st then "0."
  else if Str.includes "." (currentInput st) then currentInput st
       else currentInput st ++ ".".
Proof.
  unfold appendDecimal.
  destruct (waitingForSecondOperand st); [reflexivity |].
  destruct (Str.includes "." (currentInput st)); reflexivity.
Qed.

Lemma calculation_point (o : Operator) (a b : Num.t) :
  (Str.count "." (ToString (performCalculation o a b)) <= 1)%nat.
Proof.
  destruct o; simpl; try apply NumFacts.to_string_point.
  destruct (Num.neqb b Num.zero); simpl;
    [apply NumFacts.to_string_point | lia].
Qed.

(** No button adds a second decimal point. *)
Lemma press_point (st : State) (b : Button) :
  (Str.count "." (currentInput st) <= 1)%nat ->
  (Str.count "." (currentInput (press st b)) <= 1)%nat.
Proof.
  intros H. destruct b as [d| |o| | | |]; unfold press, click; cbn [state_of].
  - rewrite appendNumber_currentInput.
    destruct (waitingForSecondOperand st);
      [rewrite StrFacts.count_digit_text; lia |].
    destruct (String.eqb (currentInput st) "0");
      [rewrite StrFacts.count_digit_text; lia |].
    rewrite StrFacts.count_app, StrFacts.count_digit_text. lia.
  - rewrite appendDecimal_currentInput.
    destruct (waitingForSecondOperand st); [simpl; lia |].
    destruct (Str.includes "." (currentInput st)) eqn:E; [exact H |].
    rewrite StrFacts.count_app, (StrFacts.includes_false_count _ _ E).
    simpl. lia.
  - unfold handleOperator, handleOperatorWith.
    destruct (operator st) as [o'|] eqn:Ho;
      destruct (waitingForSecondOperand st) eqn:Hw;
      destruct (is_empty_string (previousInput st)); try exact H.
    pose proof (HistoryFacts.addToHistory_frame
                  (expression_of o'
                     (performCalculation o' (parseFloat (previousInput st))
                        (Num.parseFloat (currentInput st))) st)
                  (performCalculation o' (parseFloat (previousInput st))
                     (Num.parseFloat (currentInput st))) st) as (Hc & _).
    destruct (addToHistory _ _ st) as [st1|e st1]; cbn [and_then state_of] in *.
    + apply calculation_point.
    + now rewrite Hc.
  - unfold calculateResult, calculateResultWith.
    destruct (operator st) as [o'|] eqn:Ho; [|exact H].
    destruct (waitingForSecondOperand st) eqn:Hw; [exact H |].
    pose proof (HistoryFacts.addToHistory_frame
                  (expression_of o'
                     (performCalculation o' (parseFloat (previousInput st))
                        (Num.parseFloat (currentInput st))) st)
                  (performCalculation o' (parseFloat (previousInput st))
                     (Num.parseFloat (currentInput st))) st) as (Hc & _).
    destruct (addToHistory _ _ st) as [st1|e st1]; cbn [and_then state_of] in *.
    + apply calculation_point.
    + now rewrite Hc.
  - simpl. lia.
  - apply NumFacts.to_string_point.
  - apply NumFacts.to_string_point.
Qed.

Lemma reachable_presses (bs : list Button) (st : State) :
  reachable st -> reachable (presses bs st).
Proof.
  revert st; induction bs as [|b r IH]; intros st H; [exact H |].
  apply IH. now apply reach_press.
Qed.

(** C6, as the code has it.  In every reachable state [currentInput]
    holds at most one decimal point.  Where it holds one and no second
    operand is awaited, [appendDecimal] only redraws the two displays:
    input, operator, previous input, flag, history, list and storage
    stay as they were.  Where a second operand is awaited,
    [appendDecimal] sets [currentInput] to ["0."] whatever it held,
    clears the flag and redraws the displays, and leaves operator,
    previous input, history, list and storage as they were. *)
Theorem decimal_point_once :
  (forall st : State,
      reachable st -> (Str.count "." (currentInput st) <= 1)%nat)
  /\ (forall st : State,
         Str.includes "." (currentInput st) = true ->
         waitingForSecondOperand st = false ->
         appendDecimal st = updateDisplay st
         /\ currentInput (appendDecimal st) = currentInput st
         /\ operator (appendDecimal st) = operator st
         /\ previousInput (appendDecimal st) = previousInput st
         /\ waitingForSecondOperand (appendDecimal st) = false
         /\ history (appendDecimal st) = history st
         /\ calculationHistoryList (appendDecimal st) = calculationHistoryList st
         /\ localStorage (appendDecimal st) = localStorage st)
  /\ (forall st : State,
         waitingForSecondOperand st = true ->
         appendDecimal st
         = updateDisplay (set_waitingForSecondOperand false
                            (set_currentInput "0." st))
         /\ currentInput (appendDecimal st) = "0."
         /\ waitingForSecondOperand (appendDecimal st) = false
         /\ currentDisplay (appendDecimal st) = "0."
         /\ operator (appendDecimal st) = operator st
         /\ previousInput (appendDecimal st) = previousInput st
         /\ history (appendDecimal st) = history st
         /\ calculationHistoryList (appendDecimal st) = calculationHistoryList st
         /\ localStorage (appendDecimal st) = localStorage st).
Proof.
  split; [|split].
  - intros st H. induction H as [storage | st b _ IH | st _ IH].
    + destruct (HistoryFacts.start_vars storage) as (Hc & _).
      rewrite Hc. simpl. lia.
    + now apply press_point.
    + unfold clearAllHistory.
      destruct (HistoryFacts.renderHistory_frame
                  (saveHistory (set_history (JArr nil) st))) as [l ->].
      exact IH.
  - intros st Hi Hw. unfold appendDecimal. rewrite Hw, Hi. cbn [negb].
    repeat split. exact Hw.
  - intros st Hw. unfold appendDecimal. rewrite Hw. repeat split.
Qed.

Lemma decimal_point_once_witness :
  (Str.count "." (currentInput
                    (presses (BNumber D1 :: BDecimal :: BNumber D5 :: nil)
                       (state_of (start ∅)))) <= 1)%nat
  /\ appendDecimal (presses (BNumber D1 :: BDecimal :: BNumber D5 :: nil)
                      (state_of (start ∅)))
     = updateDisplay (presses (BNumber D1 :: BDecimal :: BNumber D5 :: nil)
                        (state_of (start ∅)))
  /\ currentInput
       (appendDecimal
          (presses (BNumber D1 :: BDecimal :: BNumber D5 :: BOperator Add :: nil)
             (state_of (start ∅)))) = "0."
  /\ waitingForSecondOperand
       (appendDecimal
          (presses (BNumber D1 :: BDecimal :: BNumber D5 :: BOperator Add :: nil)
             (state_of (start ∅)))) = false.
Proof.
  split; [|split; [|split]].
  - refine (proj1 decimal_point_once _ _).
    apply reachable_presses. apply reach_start.
  - refine (proj1 (proj1 (proj2 decimal_point_once) _ _ _));
      vm_compute; reflexivity.
  - refine (proj1 (proj2 (proj2 (proj2 decimal_point_once) _ _))).
    vm_compute. reflexivity.
  - refine (proj1 (proj2 (proj2 (proj2 (proj2 decimal_point_once) _ _)))).
    vm_compute. reflexivity.
Defined.

(** Why C6 needs the flag: after [1 . 5 +] the input holds a decimal
    point and a second operand is awaited, and the decimal button
    replaces the input by ["0."]. *)
Lemma appendDecimal_while_waiting :
  let st := presses (BNumber D1 :: BDecimal :: BNumber D5 :: BOperator Add :: nil)
              (state_of (start ∅)) in
  reachable st
  /\ currentInput st = "1.5"
  /\ Str.includes "." (currentInput st) = true
  /\ currentInput (appendDecimal st) = "0."
  /\ appendDecimal st <> st.
Proof.
  cbv zeta. split; [apply reachable_presses, reach_start |].
  split; [vm_compute; reflexivity |].
  split; [vm_compute; reflexivity |].
  split; [vm_compute; reflexivity |].
  intros E. apply (f_equal currentInput) in E. vm_compute in E. discriminate.
Qed.

(** ** Writing a log and reading it back *)

Module JSONFacts.

Import StrFacts.

Lemma rev_onto_rev_onto (e acc acc' : string) :
  Str.rev_onto (Str.rev_onto e acc) acc' = Str.rev_onto acc (e ++ acc').
Proof.
  revert acc acc'; induction e as [|c e IH]; intros acc acc'; [reflexivity |].
  cbn [Str.rev_onto]. rewrite IH. reflexivity.
Qed.

Lemma rev_rev (e : string) : Str.rev (Str.rev e) = e.
Proof.
  unfold Str.rev. rewrite rev_onto_rev_onto. cbn [Str.rev_onto].
  apply append_nil_r.
Qed.

Lemma plain_char_code (c : ascii) :
  plain_char c = true ->
  32 <= Str.code c <= 126 /\ Str.code c <> 34 /\ Str.code c <> 92.
Proof.
  unfold plain_char. cbv zeta. intros H.
  apply andb_prop in H as [H H4]. apply andb_prop in H as [H H3].
  apply andb_prop in H as [H1 H2].
  apply Z.leb_le in H1. apply Z.leb_le in H2.
  apply negb_true_iff, Z.eqb_neq in H3. apply negb_true_iff, Z.eqb_neq in H4.
  lia.
Qed.

Lemma quote_byte_plain (c : ascii) :
  plain_char c = true -> JSON.quote_byte c = String c "".
Proof.
  intros H. apply plain_char_code in H as (H1 & H2 & H3).
  unfold JSON.quote_byte. cbv zeta.
  repeat match goal with
         | |- context [?a =? ?b] =>
             destruct (Z.eqb_spec a b); [lia |]
         end.
  destruct (Z.ltb_spec (Str.code c) 32); [lia | reflexivity].
Qed.

(** Plain text is written as it is. *)
Lemma quote_body_plain (e : string) :
  plain e = true -> JSON.quote_body e = e.
Proof.
  induction e as [|a r IH]; [reflexivity |].
  cbn [plain]. intros H. apply andb_prop in H as [Ha Hr].
  assert (E : JSON.quote_body (String a r)
              = JSON.quote_byte a ++ JSON.quote_body r).
  { cbn [JSON.quote_body]. destruct r as [|b [|c r']]; try reflexivity.
    apply plain_char_code in Ha as (H1 & _).
    destruct (Z.eqb_spec (Str.code a) 237); [lia | reflexivity]. }
  rewrite E, (quote_byte_plain a Ha), (IH Hr). reflexivity.
Qed.

Lemma lex_string_step (p : JSON.Partial) (out : list JSON.Token)
      (c : ascii) (r : string) :
  JSON.lex (JSON.MString p) out (String c r) =
  if Str.code c =? 34
  then JSON.lex JSON.MIdle (JSON.TStr (Str.rev (JSON.flush p)) :: out) r
  else if Str.code c =? 92 then JSON.lex (JSON.MEscape p) out r
  else if Str.code c <? 32 then None
  else JSON.lex (JSON.MString (JSON.push_byte c p)) out r.
Proof. reflexivity. Qed.

(** Inside a string, plain text up to the closing quote becomes the
    string token. *)
Lemma lex_plain (e : string) :
  forall (acc : string) (out : list JSON.Token) (s : string),
    plain e = true ->
    JSON.lex (JSON.MString {| JSON.bytes := acc; JSON.high := None |}) out
             (e ++ String dqc s)
    = JSON.lex JSON.MIdle (JSON.TStr (Str.rev (Str.rev_onto e acc)) :: out) s.
Proof.
  induction e as [|c e IH]; intros acc out s H.
  - rewrite append_nil_l, lex_string_step. reflexivity.
  - cbn [plain] in H. apply andb_prop in H as [Hc He].
    apply plain_char_code in Hc as (H1 & H2 & H3).
    rewrite append_cons, lex_string_step.
    destruct (Z.eqb_spec (Str.code c) 34); [lia |].
    destruct (Z.eqb_spec (Str.code c) 92); [lia |].
    destruct (Z.ltb_spec (Str.code c) 32); [lia |].
    unfold JSON.push_byte, JSON.flush. cbn [JSON.high JSON.bytes].
    rewrite (IH (String c acc) out s He). reflexivity.
Qed.

(** A quoted plain string, met between tokens, is read back. *)
Lemma lex_quote (e : string) (out : list JSON.Token) (s : string) :
  plain e = true ->
  JSON.lex JSON.MIdle out (JSON.quote e ++ s)
  = JSON.lex JSON.MIdle (JSON.TStr e :: out) s.
Proof.
  intros H. unfold JSON.quote. rewrite (quote_body_plain e H).
  unfold JSON.dq.
  repeat (rewrite ?append_assoc, ?append_cons, ?append_nil_l).
  change (Str.chr 34) with dqc.
  change (JSON.lex JSON.MIdle out (String dqc (e ++ String dqc s)))
    with (JSON.lex (JSON.MString {| JSON.bytes := ""; JSON.high := None |}) out
                   (e ++ String dqc s)).
  rewrite (lex_plain e "" out s H).
  change (Str.rev (Str.rev_onto e "")) with (Str.rev (Str.rev e)).
  now rewrite rev_rev.
Qed.

Lemma stringify_entry (e : string * string) (s : string) :
  JSON.stringify (entry (fst e) (snd e)) ++ s
  = String "{" (JSON.quote "expression"
      ++ String ":" (JSON.quote (fst e)
      ++ String "," (JSON.quote "result"
      ++ String ":" (JSON.quote (snd e) ++ String "}" s)))).
Proof.
  cbn [JSON.stringify entry List.map Str.join].
  repeat (rewrite ?append_assoc, ?append_cons, ?append_nil_l).
  reflexivity.
Qed.

Lemma lex_entry (e : string * string) (out : list JSON.Token) (s : string) :
  plain (fst e) = true -> plain (snd e) = true ->
  JSON.lex JSON.MIdle out (JSON.stringify (entry (fst e) (snd e)) ++ s)
  = JSON.lex JSON.MIdle (entry_tokens e ++ out)%list s.
Proof.
  intros H1 H2. rewrite stringify_entry.
  change (JSON.lex JSON.MIdle out (String "{" ?x))
    with (JSON.lex JSON.MIdle (JSON.TLBrace :: out) x).
  rewrite lex_quote by reflexivity.
  match goal with
  | |- JSON.lex JSON.MIdle ?o (String ":" ?x) = _ =>
      change (JSON.lex JSON.MIdle o (String ":" x))
        with (JSON.lex JSON.MIdle (JSON.TColon :: o) x)
  end.
  rewrite lex_quote by exact H1.
  match goal with
  | |- JSON.lex JSON.MIdle ?o (String "," ?x) = _ =>
      change (JSON.lex JSON.MIdle o (String "," x))
        with (JSON.lex JSON.MIdle (JSON.TComma :: o) x)
  end.
  rewrite lex_quote by reflexivity.
  match goal with
  | |- JSON.lex JSON.MIdle ?o (String ":" ?x) = _ =>
      change (JSON.lex JSON.MIdle o (String ":" x))
        with (JSON.lex JSON.MIdle (JSON.TColon :: o) x)
  end.
  rewrite lex_quote by exact H2.
  reflexivity.
Qed.

Lemma lex_entries (l : list (string * string)) :
  forall (out : list JSON.Token) (s : string),
    plain_log l ->
    JSON.lex JSON.MIdle out
      (Str.join "," (List.map JSON.stringify
                       (List.map (fun e => entry (fst e) (snd e)) l)) ++ s)
    = JSON.lex JSON.MIdle (entries_tokens l ++ out)%list s.
Proof.
  induction l as [|e r IH]; intros out s H; [reflexivity |].
  inversion H as [|e' r' [H1 H2] Hr]; subst.
  destruct r as [|e2 r2].
  - cbn [List.map Str.join entries_tokens]. now apply lex_entry.
  - change (Str.join "," (List.map JSON.stringify
              (List.map (fun e0 => entry (fst e0) (snd e0)) (e :: e2 :: r2))))
      with (JSON.stringify (entry (fst e) (snd e)) ++ "," ++
            Str.join "," (List.map JSON.stringify
              (List.map (fun e0 => entry (fst e0) (snd e0)) (e2 :: r2)))).
    rewrite !append_assoc, lex_entry by assumption.
    rewrite append_cons, append_nil_l.
    match goal with
    | |- JSON.lex JSON.MIdle ?o (String "," ?x) = _ =>
        change (JSON.lex JSON.MIdle o (String "," x))
          with (JSON.lex JSON.MIdle (JSON.TComma :: o) x)
    end.
    rewrite (IH _ s Hr).
    change (entries_tokens (e :: e2 :: r2))
      with (entries_tokens (e2 :: r2) ++ JSON.TComma :: entry_tokens e)%list.
    rewrite <- app_assoc. reflexivity.
Qed.

Lemma lex_log (l : list (string * string)) :
  plain_log l ->
  JSON.lex JSON.MIdle nil (JSON.stringify (log l)) = Some (log_tokens l).
Proof.
  intros H. unfold log. cbn [JSON.stringify].
  rewrite append_cons, append_nil_l.
  change (JSON.lex JSON.MIdle nil (String "[" ?x))
    with (JSON.lex JSON.MIdle (JSON.TLBrack :: nil) x).
  rewrite (lex_entries l _ "]" H).
  change (JSON.lex JSON.MIdle ?o "]") with (Some (List.rev (JSON.TRBrack :: o))).
  unfold log_tokens. cbn [List.rev]. rewrite rev_app_distr. reflexivity.
Qed.

(** The parser takes the tokens of one record to the record. *)
Lemma run_entry (e : string * string) (done : list JSValue)
      (stack : list JSON.Frame) (ts : list JSON.Token) :
  JSON.run (JSON.EValue (JSON.FArr done :: stack)) (List.rev (entry_tokens e) ++ ts)%list
  = JSON.run (JSON.EArrNext (entry (fst e) (snd e) :: done) stack) ts.
Proof. reflexivity. Qed.

Lemma run_entries (l : list (string * string)) :
  forall (e : string * string) (done : list JSValue) (ts : list JSON.Token),
    JSON.run (JSON.EValue (JSON.FArr done :: nil))
             (List.rev (entries_tokens (e :: l)) ++ ts)%list
    = JSON.run (JSON.EArrNext
                  (List.rev (List.map (fun e0 => entry (fst e0) (snd e0)) (e :: l))
                   ++ done)%list nil) ts.
Proof.
  induction l as [|e2 r IH]; intros e done ts.
  - cbn [entries_tokens]. rewrite run_entry. reflexivity.
  - change (entries_tokens (e :: e2 :: r))
      with (entries_tokens (e2 :: r) ++ JSON.TComma :: entry_tokens e)%list.
    rewrite rev_app_distr. cbn [List.rev].
    rewrite <- !app_assoc. rewrite run_entry.
    cbn [app JSON.run JSON.shift].
    rewrite IH.
    cbn [List.map List.rev]. rewrite <- !app_assoc. reflexivity.
Qed.

Lemma run_log (l : list (string * string)) :
  JSON.run (JSON.EValue nil) (log_tokens l) = Some (log l).
Proof.
  unfold log_tokens. destruct l as [|e r]; [reflexivity |].
  cbn [JSON.run JSON.shift JSON.value].
  assert (F : forall ts',
             JSON.run (JSON.EArrFirst nil) (List.rev (entries_tokens (e :: r)) ++ ts')%list
             = JSON.run (JSON.EValue (JSON.FArr nil :: nil))
                        (List.rev (entries_tokens (e :: r)) ++ ts')%list).
  { intros ts'.
    assert (L : exists rest, List.rev (entries_tokens (e :: r)) = JSON.TLBrace :: rest).
    { clear. revert e; induction r as [|e2 r IH]; intros e.
      - eexists; reflexivity.
      - change (entries_tokens (e :: e2 :: r))
          with (entries_tokens (e2 :: r) ++ JSON.TComma :: entry_tokens e)%list.
        rewrite rev_app_distr. eexists. reflexivity. }
    destruct L as [rest ->]. reflexivity. }
  rewrite F, run_entries. rewrite app_nil_r.
  cbn [JSON.run JSON.shift JSON.reduce]. rewrite rev_involutive. reflexivity.
Qed.

(** What [JSON.stringify] writes for a plain log, [JSON.parse] reads
    back as that log. *)
Lemma parse_stringify_log (l : list (string * string)) :
  plain_log l -> JSON.parse (JSON.stringify (log l)) = Some (log l).
Proof.
  intros H. unfold JSON.parse. rewrite (lex_log l H). apply run_log.
Qed.

End JSONFacts.

(** ** Loading *)

Lemma stringify_log_nonempty (l : list (string * string)) :
  String.eqb (JSON.stringify (log l)) "" = false.
Proof. reflexivity. Qed.

(** With the text of a plain log under the key, [loadHistory] returns
    with that log as the history and shown in the list. *)
Lemma loadHistory_log (l : list (string * string)) (storage : gmap string string) :
  plain_log l ->
  storage !! historyKey = Some (JSON.stringify (log l)) ->
  loadHistory (fresh storage)
  = Done (set_calculationHistoryList (shown l)
            (set_history (log l) (fresh storage))).
Proof.
  intros Hl H. unfold loadHistory. cbn [fresh localStorage].
  rewrite H, stringify_log_nonempty, (JSONFacts.parse_stringify_log l Hl).
  apply HistoryFacts.renderHistory_log. reflexivity.
Qed.

(** C1, as the code has it.  With nothing, or the empty string, under
    the history key, [loadHistory] returns and the history stays the
    empty array it was declared as.  With any text that [JSON.parse]
    reads as a log (an array of [{ expression, result }] objects with
    string values), whatever its spacing or escapes, it returns with
    that log as the history and shown in the list, and so does the
    start; the text that [saveHistory] writes for a log of plain records
    is such a text.  With a text that [JSON.parse] rejects, the
    SyntaxError leaves [loadHistory], the history still empty and
    nothing drawn. *)
Theorem loadHistory_outcomes (storage : gmap string string) :
  (storage !! historyKey = None \/ storage !! historyKey = Some "" ->
   loadHistory (fresh storage) = Done (fresh storage)
   /\ history (fresh storage) = JArr nil)
  /\ (forall (s : string) (l : list (string * string)),
         storage !! historyKey = Some s -> s <> "" ->
         JSON.parse s = Some (log l) ->
         loadHistory (fresh storage)
         = Done (set_calculationHistoryList (shown l)
                   (set_history (log l) (fresh storage)))
         /\ start storage
            = Done (updateDisplay
                      (set_calculationHistoryList (shown l)
                         (set_history (log l) (fresh storage)))))
  /\ (forall l : list (string * string),
         plain_log l ->
         JSON.stringify (log l) <> ""
         /\ JSON.parse (JSON.stringify (log l)) = Some (log l)
         /\ (storage !! historyKey = Some (JSON.stringify (log l)) ->
             loadHistory (fresh storage)
             = Done (set_calculationHistoryList (shown l)
                       (set_history (log l) (fresh storage)))))
  /\ (forall s : string,
         storage !! historyKey = Some s -> s <> "" -> JSON.parse s = None ->
         loadHistory (fresh storage) = Throw SyntaxError (fresh storage)
         /\ start storage = Throw SyntaxError (fresh storage)).
Proof.
  split; [|split; [|split]].
  - intros [H|H]; unfold loadHistory; cbn [fresh localStorage history];
      rewrite H; split; reflexivity.
  - intros s l H Hs Hp.
    assert (L : loadHistory (fresh storage)
                = Done (set_calculationHistoryList (shown l)
                          (set_history (log l) (fresh storage)))).
    { unfold loadHistory. cbn [fresh localStorage]. rewrite H.
      destruct (String.eqb_spec s ""); [contradiction |].
      rewrite Hp. apply HistoryFacts.renderHistory_log. reflexivity. }
    split; [exact L |]. unfold start. now rewrite L.
  - intros l Hl. split; [|split].
    + intros E. pose proof (stringify_log_nonempty l) as N.
      rewrite E in N. discriminate.
    + now apply JSONFacts.parse_stringify_log.
    + intros H. now apply loadHistory_log.
  - intros s H Hs Hp.
    assert (L : loadHistory (fresh storage) = Throw SyntaxError (fresh storage)).
    { unfold loadHistory. cbn [fresh localStorage]. rewrite H.
      destruct (String.eqb_spec s ""); [contradiction |].
      now rewrite Hp. }
    split; [exact L |]. unfold start. now rewrite L.
Qed.

Lemma loadHistory_outcomes_witness :
  loadHistory (fresh {[ historyKey := " [ {" ++ JSON.dq ++ "expression" ++ JSON.dq
                                        ++ " : " ++ JSON.dq ++ "5 + 3 = 8" ++ JSON.dq
                                        ++ " , " ++ JSON.dq ++ "result" ++ JSON.dq
                                        ++ " : " ++ JSON.dq ++ "\u0038" ++ JSON.dq
                                        ++ "} ] " ]})
  = Done (set_calculationHistoryList (shown (("5 + 3 = 8", "8") :: nil))
            (set_history (log (("5 + 3 = 8", "8") :: nil))
               (fresh {[ historyKey := " [ {" ++ JSON.dq ++ "expression" ++ JSON.dq
                                        ++ " : " ++ JSON.dq ++ "5 + 3 = 8" ++ JSON.dq
                                        ++ " , " ++ JSON.dq ++ "result" ++ JSON.dq
                                        ++ " : " ++ JSON.dq ++ "\u0038" ++ JSON.dq
                                        ++ "} ] " ]})))
  /\ JSON.parse (JSON.stringify (log (("5 + 3 = 8", "8") :: nil)))
     = Some (log (("5 + 3 = 8", "8") :: nil))
  /\ loadHistory (fresh {[ historyKey := "[1" ]})
     = Throw SyntaxError (fresh {[ historyKey := "[1" ]})
  /\ loadHistory (fresh ∅) = Done (fresh ∅).
Proof.
  split; [|split; [|split]]; cycle 3.
  { refine (proj1 (proj1 (loadHistory_outcomes ∅) _)).
    left. apply lookup_empty. }
  - eapply (proj1 (proj2 (loadHistory_outcomes _))).
    + apply lookup_singleton_eq.
    + discriminate.
    + vm_compute. reflexivity.
  - apply (proj1 (proj2 (proj2 (loadHistory_outcomes ∅)))
             (("5 + 3 = 8", "8") :: nil)).
    repeat constructor.
  - apply (proj2 (proj2 (proj2 (loadHistory_outcomes _))) "[1").
    + apply lookup_singleton_eq.
    + discriminate.
    + vm_compute. reflexivity.
Defined.

(** Why C1 cannot promise a return: a lone brace under the history key
    is no JSON, and both [loadHistory] and the start end in the
    SyntaxError. *)
Lemma loadHistory_corrupt :
  JSON.parse "{" = None
  /\ loadHistory (fresh {[ historyKey := "{" ]})
     = Throw SyntaxError (fresh {[ historyKey := "{" ]})
  /\ start {[ historyKey := "{" ]}
     = Throw SyntaxError (fresh {[ historyKey := "{" ]}).
Proof.
  assert (P : JSON.parse "{" = None) by (vm_compute; reflexivity).
  assert (L : loadHistory (fresh {[ historyKey := "{" ]})
              = Throw SyntaxError (fresh {[ historyKey := "{" ]})).
  { unfold loadHistory. cbn [fresh localStorage].
    rewrite lookup_singleton_eq. change (String.eqb "{" "") with false.
    cbv iota. now rewrite P. }
  split; [exact P |]. split; [exact L |]. unfold start. now rewrite L.
Qed.


(** ** A session keeps a log it can read back *)

Module SessionFacts.

Import StrFacts.

Lemma plain_app (a b : string) : plain (a ++ b) = plain a && plain b.
Proof.
  induction a as [|c a IH]; [reflexivity |].
  rewrite append_cons. cbn [plain]. rewrite IH. apply andb_assoc.
Qed.

Lemma plain_take (n : nat) (s : string) :
  plain s = true -> plain (Str.take n s) = true.
Proof.
  revert s; induction n as [|n IH]; intros [|c s] H; try reflexivity.
  cbn [plain Str.take] in *. apply andb_prop in H as [Hc Hs].
  now rewrite Hc, (IH s Hs).
Qed.

Lemma plain_drop (n : nat) (s : string) :
  plain s = true -> plain (Str.drop n s) = true.
Proof.
  revert s; induction n as [|n IH]; intros [|c s] H; try exact H.
  cbn [plain Str.drop] in *. apply andb_prop in H as [_ Hs]. now apply IH.
Qed.

Lemma plain_zeros (n : nat) : plain (Str.zeros n) = true.
Proof. induction n as [|n IH]; [reflexivity | exact IH]. Qed.

Lemma plain_uint (u : Decimal.uint) : plain (NilEmpty.string_of_uint u) = true.
Proof. induction u; [reflexivity | exact IHu ..]. Qed.

Lemma plain_dec_string (z : Z) : plain (Num.dec_string z) = true.
Proof.
  unfold Num.dec_string, NilZero.string_of_uint.
  destruct (N.to_uint (Z.to_N z)) eqn:E; try reflexivity;
    rewrite <- E; apply plain_uint.
Qed.

Lemma plain_format_decimal (s n : Z) : plain (Num.format_decimal s n) = true.
Proof.
  unfold Num.format_decimal.
  pose proof (plain_dec_string s) as Hds.
  pose proof (plain_take 1 _ Hds) as Ht1. pose proof (plain_drop 1 _ Hds) as Hd1.
  pose proof (plain_take (Z.to_nat n) _ Hds) as Htn.
  pose proof (plain_drop (Z.to_nat n) _ Hds) as Hdn.
  set (ds := Num.dec_string s) in *.
  set (t1 := Str.take 1 ds) in *. set (d1 := Str.drop 1 ds) in *.
  set (tn := Str.take (Z.to_nat n) ds) in *.
  set (dn := Str.drop (Z.to_nat n) ds) in *.
  clearbody t1 d1 tn dn.
  repeat match goal with |- context [if ?b then _ else _] => destruct b end;
    rewrite ?plain_app, ?plain_zeros, ?plain_dec_string, ?Hds, ?Ht1, ?Hd1,
      ?Htn, ?Hdn; reflexivity.
Qed.

Lemma plain_to_string (x : Num.t) : plain (Num.to_string x) = true.
Proof.
  assert (P : forall m e, plain (Num.to_string_pos m e) = true).
  { intros m e. unfold Num.to_string_pos.
    destruct (Num.frac_of m e) as [num den].
    destruct (Num.shortest _ _ _ _ _ _) as [s n'].
    apply plain_format_decimal. }
  destruct x as [s|s| |s m e]; cbn [Num.to_string];
    try (destruct s; reflexivity); try reflexivity.
  destruct s; [|apply P]. rewrite plain_app, P. reflexivity.
Qed.

Lemma plain_calculation (o : Operator) (a b : Num.t) :
  plain (ToString (performCalculation o a b)) = true.
Proof.
  destruct o; cbn [performCalculation ToString]; try apply plain_to_string.
  destruct (Num.neqb b Num.zero); [apply plain_to_string | reflexivity].
Qed.

Lemma plain_digit_text (d : Digit) : plain (digit_text d) = true.
Proof. destruct d; reflexivity. Qed.

Lemma plain_symbol (o : Operator) : plain (symbol o) = true.
Proof. destruct o; reflexivity. Qed.

Lemma plain_expression (o : Operator) (calculation : Prim) (st : State) :
  plain (currentInput st) = true ->
  plain (ToString (previousInput st)) = true ->
  plain (ToString calculation) = true ->
  plain (expression_of o calculation st) = true.
Proof.
  intros Hc Hp Hr. unfold expression_of.
  rewrite !plain_app, Hc, Hp, Hr, plain_symbol. reflexivity.
Qed.

Lemma plain_log_pushed (e : string * string) (l : list (string * string)) :
  plain (fst e) = true -> plain (snd e) = true ->
  plain_log l -> (length l <= 10)%nat ->
  plain_log (pushed e l) /\ (length (pushed e l) <= 10)%nat.
Proof.
  intros H1 H2 Hl Hn. rewrite HistoryFacts.pushed_firstn by exact Hn. split.
  - apply Forall_take. constructor; [split; assumption | exact Hl].
  - apply firstn_le_length.
Qed.

(** What [addToHistory] leaves of a kept state; the caller then writes
    its own variables. *)
Lemma recorded_kept (expression : string) (result : Prim) (st : State)
      (l : list (string * string)) :
  plain expression = true -> plain (ToString result) = true ->
  history st = log l -> plain_log l -> (length l <= 10)%nat ->
  exists st1 l1,
    addToHistory expression result st = Done st1
    /\ currentInput st1 = currentInput st
    /\ previousInput st1 = previousInput st
    /\ history st1 = log l1 /\ plain_log l1 /\ (length l1 <= 10)%nat
    /\ localStorage st1 !! historyKey = Some (JSON.stringify (log l1)).
Proof.
  intros He Hr Hh Hl Hn.
  rewrite (HistoryFacts.addToHistory_log expression result l st Hh).
  destruct (plain_log_pushed (expression, ToString result) l He Hr Hl Hn)
    as [Hl1 Hn1].
  eexists. exists (pushed (expression, ToString result) l).
  split; [reflexivity |]. repeat split; try assumption.
  cbn [localStorage set_calculationHistoryList saveHistory set_localStorage
       set_history history].
  apply lookup_insert_eq.
Qed.

Lemma press_kept (st : State) (b : Button) : kept st -> kept (press st b).
Proof.
  intros (Hc & Hp & l & Hh & Hl & Hn & Hs).
  destruct b as [d| |o| | | |]; unfold press, click; cbn [state_of].
  - split; [|split; [|exists l]].
    + rewrite appendNumber_currentInput.
      destruct (waitingForSecondOperand st); [apply plain_digit_text |].
      destruct (String.eqb (currentInput st) "0"); [apply plain_digit_text |].
      now rewrite plain_app, Hc, plain_digit_text.
    + unfold appendNumber. destruct (waitingForSecondOperand st); exact Hp.
    + unfold appendNumber, stored.
      destruct (waitingForSecondOperand st); repeat split; assumption.
  - split; [|split; [|exists l]].
    + rewrite appendDecimal_currentInput.
      destruct (waitingForSecondOperand st); [reflexivity |].
      destruct (Str.includes "." (currentInput st)); [exact Hc |].
      now rewrite plain_app, Hc.
    + unfold appendDecimal. destruct (waitingForSecondOperand st); [exact Hp |].
      destruct (Str.includes "." (currentInput st)); exact Hp.
    + unfold appendDecimal, stored.
      destruct (waitingForSecondOperand st); [repeat split; assumption |].
      destruct (Str.includes "." (currentInput st)); repeat split; assumption.
  - unfold handleOperator, handleOperatorWith.
    destruct (operator st) as [o'|] eqn:Ho;
      destruct (waitingForSecondOperand st) eqn:Hw;
      destruct (is_empty_string (previousInput st)) eqn:He;
      try (split; [exact Hc | split; [exact Hp | exists l; repeat split; assumption]]);
      try (split; [exact Hc
                  | split; [apply plain_to_string
                           | exists l; repeat split; assumption]]).
    set (calculation := performCalculation o' (parseFloat (previousInput st))
                          (Num.parseFloat (currentInput st))).
    assert (Hr : plain (ToString calculation) = true) by apply plain_calculation.
    destruct (recorded_kept (expression_of o' calculation st) calculation st l)
      as (st1 & l1 & -> & _ & _ & Hh1 & Hl1 & Hn1 & Hs1);
      try assumption; [now apply plain_expression |].
    cbn [and_then state_of].
    split; [exact Hr | split; [exact Hr |]].
    exists l1. repeat split; try assumption. left. exact Hs1.
  - unfold calculateResult, calculateResultWith.
    destruct (operator st) as [o'|] eqn:Ho;
      [|split; [exact Hc | split; [exact Hp | exists l; repeat split; assumption]]].
    destruct (waitingForSecondOperand st) eqn:Hw;
      [split; [exact Hc | split; [exact Hp | exists l; repeat split; assumption]] |].
    set (calculation := performCalculation o' (parseFloat (previousInput st))
                          (Num.parseFloat (currentInput st))).
    assert (Hr : plain (ToString calculation) = true) by apply plain_calculation.
    destruct (recorded_kept (expression_of o' calculation st) calculation st l)
      as (st1 & l1 & -> & _ & _ & Hh1 & Hl1 & Hn1 & Hs1);
      try assumption; [now apply plain_expression |].
    cbn [and_then state_of].
    split; [exact Hr | split; [reflexivity |]].
    exists l1. repeat split; try assumption. left. exact Hs1.
  - split; [reflexivity | split; [reflexivity |]].
    exists l. repeat split; assumption.
  - split; [apply plain_to_string | split; [exact Hp |]].
    exists l. repeat split; assumption.
  - split; [apply plain_to_string | split; [exact Hp |]].
    exists l. repeat split; assumption.
Qed.

(** A start on the storage of a kept state returns, with the same
    history. *)
Lemma start_kept (st : State) :
  kept st ->
  exists st', start (localStorage st) = Done st'
              /\ history st' = history st /\ kept st'.
Proof.
  intros (Hc & Hp & l & Hh & Hl & Hn & [Hs|[-> Hs]]).
  - unfold start. rewrite (loadHistory_log l _ Hl Hs).
    eexists. split; [reflexivity |]. split; [now rewrite Hh |].
    split; [reflexivity | split; [reflexivity |]].
    exists l. repeat split; try assumption. left. exact Hs.
  - unfold start, loadHistory. cbn [fresh localStorage]. rewrite Hs.
    eexists. split; [reflexivity |]. split; [now rewrite Hh |].
    split; [reflexivity | split; [reflexivity |]].
    exists nil. repeat split; try assumption. right. split; [reflexivity | exact Hs].
Qed.

(** Through clicks, clearing and reloads the history stays a plain log
    of at most ten records that the storage holds the text of. *)
Lemma session_kept (st : State) : session st -> kept st.
Proof.
  induction 1 as [storage Hs | st b _ IH | st _ IH | st _ IH].
  - unfold start, loadHistory. cbn [fresh localStorage]. rewrite Hs.
    split; [reflexivity | split; [reflexivity |]].
    exists nil. split; [reflexivity |]. split; [constructor |].
    split; [simpl; lia |]. right. split; [reflexivity | exact Hs].
  - now apply press_kept.
  - destruct IH as (Hc & Hp & _).
    unfold clearAllHistory.
    rewrite (HistoryFacts.renderHistory_log nil) by reflexivity.
    split; [exact Hc | split; [exact Hp |]].
    exists nil. split; [reflexivity |]. split; [constructor |].
    split; [simpl; lia |]. left. apply lookup_insert_eq.
  - destruct (start_kept st IH) as (st' & -> & _ & K). exact K.
Qed.

(** So in a session the log never holds more than ten records, no
    handler and no reload throws on its account, and a reload brings the
    same history back. *)
Lemma session_history (st : State) :
  session st ->
  (exists items, history st = JArr items /\ (length items <= 10)%nat)
  /\ (exists st', start (localStorage st) = Done st'
                  /\ history st' = history st).
Proof.
  intros H. pose proof (session_kept st H) as K. split.
  - destruct K as (_ & _ & l & Hh & _ & Hn & _).
    eexists. split; [exact Hh |]. now rewrite length_map.
  - destruct (start_kept st K) as (st' & Hs & Hh & _). now exists st'.
Qed.

End SessionFacts.

(** * Further properties *)

(** ** Saving and loading *)

(** X1.  What [saveHistory] writes for a log of plain records,
    [loadHistory] on a fresh page reads back: it returns, with the same
    history and the list showing its records. *)
Theorem saveHistory_loadHistory (l : list (string * string)) (st : State) :
  history st = log l -> plain_log l ->
  exists st',
    loadHistory (fresh (localStorage (saveHistory st))) = Done st'
    /\ history st' = history st
    /\ calculationHistoryList st' = shown l
    /\ localStorage st' = localStorage (saveHistory st).
Proof.
  intros H Hl.
  rewrite (loadHistory_log l).
  - eexists. split; [reflexivity |]. rewrite H. repeat split.
  - exact Hl.
  - unfold saveHistory. cbn [localStorage set_localStorage]. rewrite H.
    apply lookup_insert_eq.
Qed.

Lemma saveHistory_loadHistory_witness :
  exists st',
    loadHistory (fresh (localStorage
                          (saveHistory (set_history (log (("2 * 3 = 6", "6") :: nil))
                                          (fresh ∅))))) = Done st'
    /\ history st' = log (("2 * 3 = 6", "6") :: nil).
Proof.
  destruct (saveHistory_loadHistory (("2 * 3 = 6", "6") :: nil)
              (set_history (log (("2 * 3 = 6", "6") :: nil)) (fresh ∅)))
    as (st' & H1 & H2 & _).
  - reflexivity.
  - repeat constructor.
  - exists st'. split; [exact H1 | exact H2].
Defined.

(** With a log as history every button's handler returns. *)
Lemma click_returns (b : Button) (l : list (string * string)) (st : State) :
  history st = log l -> exists st', click b st = Done st'.
Proof.
  intros H. destruct b as [d| |o| | | |]; cbn [click]; try (eexists; reflexivity).
  - unfold handleOperator, handleOperatorWith.
    destruct (operator st) as [o'|]; destruct (waitingForSecondOperand st);
      destruct (is_empty_string (previousInput st)); try (eexists; reflexivity).
    rewrite (HistoryFacts.addToHistory_log _ _ l st H). eexists; reflexivity.
  - unfold calculateResult, calculateResultWith.
    destruct (operator st) as [o'|]; destruct (waitingForSecondOperand st);
      try (eexists; reflexivity).
    rewrite (HistoryFacts.addToHistory_log _ _ l st H). eexists; reflexivity.
Qed.

(** X2.  In a session (a start without stored history, then any clicks,
    clearings and reloads) the history is always an array of at most ten
    records, the storage holds its text unless nothing was ever saved, no
    button's handler throws, and a reload returns with the same
    history. *)
Theorem session_persists (st : State) :
  session st ->
  (exists l : list (string * string),
      history st = log l /\ (length l <= 10)%nat
      /\ (localStorage st !! historyKey = Some (JSON.stringify (history st))
          \/ (l = nil /\ localStorage st !! historyKey = None)))
  /\ (forall b : Button, exists st', click b st = Done st')
  /\ (exists st', start (localStorage st) = Done st'
                  /\ history st' = history st).
Proof.
  intros H. pose proof (SessionFacts.session_kept st H) as K.
  destruct (SessionFacts.start_kept st K) as (st' & Hs & Hh & _).
  destruct K as (_ & _ & l & Hl & _ & Hn & Hst).
  split; [|split].
  - exists l. split; [exact Hl |]. split; [exact Hn |].
    rewrite Hl. exact Hst.
  - intros b. now apply (click_returns b l).
  - now exists st'.
Qed.

Lemma session_persists_witness :
  exists st',
    start (localStorage
             (presses (BNumber D7 :: BOperator Multiply :: BNumber D6
                         :: BEquals :: nil) (state_of (start ∅)))) = Done st'
    /\ history st'
       = history (presses (BNumber D7 :: BOperator Multiply :: BNumber D6
                             :: BEquals :: nil) (state_of (start ∅))).
Proof.
  apply (session_persists
           (presses (BNumber D7 :: BOperator Multiply :: BNumber D6
                       :: BEquals :: nil) (state_of (start ∅)))).
  cbn [presses fold_left].
  repeat apply session_press. apply session_start. apply lookup_empty.
Defined.

(** ** What the handlers leave alone *)

Lemma addToHistory_other_keys (expression : string) (result : Prim)
      (st : State) (k : string) :
  k <> historyKey ->
  localStorage (state_of (addToHistory expression result st)) !! k
  = localStorage st !! k.
Proof.
  intros Hk. unfold addToHistory.
  destruct (history st) as [|b|x|s|items|props]; try reflexivity.
  match goal with
  | |- context [renderHistory ?s] => destruct (HistoryFacts.renderHistory_frame s) as [l ->]
  end.
  cbn [localStorage set_calculationHistoryList saveHistory set_localStorage
       set_history].
  apply lookup_insert_ne. congruence.
Qed.

(** X3.  The page writes to no storage key but its own: after the
    start, after any button and after clearing the history, every other
    key holds what it held. *)
Theorem other_keys_untouched (k : string) :
  k <> historyKey ->
  (forall storage : gmap string string,
      localStorage (state_of (start storage)) !! k = storage !! k)
  /\ (forall (st : State) (b : Button),
         localStorage (press st b) !! k = localStorage st !! k)
  /\ (forall st : State,
         localStorage (state_of (clearAllHistory st)) !! k = localStorage st !! k).
Proof.
  intros Hk. split; [|split].
  - intros storage. unfold start, loadHistory. cbn [fresh localStorage].
    destruct (storage !! historyKey) as [s|]; [|reflexivity].
    destruct (String.eqb s ""); [reflexivity |].
    destruct (JSON.parse s) as [v|]; [|reflexivity].
    destruct (HistoryFacts.renderHistory_frame (set_history v (fresh storage))) as [l Hl].
    destruct (renderHistory (set_history v (fresh storage))) as [st1|e st1];
      simpl in Hl; subst st1; reflexivity.
  - intros st b. destruct b as [d| |o| | | |]; unfold press, click; cbn [state_of].
    + unfold appendNumber. destruct (waitingForSecondOperand st); reflexivity.
    + unfold appendDecimal. destruct (waitingForSecondOperand st); [reflexivity |].
      destruct (Str.includes "." (currentInput st)); reflexivity.
    + unfold handleOperator, handleOperatorWith.
      destruct (operator st) as [o'|]; destruct (waitingForSecondOperand st);
        destruct (is_empty_string (previousInput st)); try reflexivity.
      pose proof (addToHistory_other_keys
                    (expression_of o'
                       (performCalculation o' (parseFloat (previousInput st))
                          (Num.parseFloat (currentInput st))) st)
                    (performCalculation o' (parseFloat (previousInput st))
                       (Num.parseFloat (currentInput st))) st k Hk) as F.
      destruct (addToHistory _ _ st) as [st1|e st1]; exact F.
    + unfold calculateResult, calculateResultWith.
      destruct (operator st) as [o'|]; [|reflexivity].
      destruct (waitingForSecondOperand st); [reflexivity |].
      pose proof (addToHistory_other_keys
                    (expression_of o'
                       (performCalculation o' (parseFloat (previousInput st))
                          (Num.parseFloat (currentInput st))) st)
                    (performCalculation o' (parseFloat (previousInput st))
                       (Num.parseFloat (currentInput st))) st k Hk) as F.
      destruct (addToHistory _ _ st) as [st1|e st1]; exact F.
    + reflexivity.
    + reflexivity.
    + reflexivity.
  - intros st. unfold clearAllHistory.
    destruct (HistoryFacts.renderHistory_frame (saveHistory (set_history (JArr nil) st)))
      as [l ->].
    cbn [localStorage set_calculationHistoryList saveHistory set_localStorage
         set_history].
    apply lookup_insert_ne. congruence.
Qed.

Lemma other_keys_untouched_witness :
  localStorage (press (fresh {[ "theme" := "dark" ]}) BEquals) !! "theme"
  = Some "dark".
Proof.
  rewrite (proj1 (proj2 (other_keys_untouched "theme" ltac:(discriminate)))).
  apply lookup_singleton_eq.
Defined.

Lemma press_untouched (st : State) (b : Button) :
  resolves b st = false ->
  history (press st b) = history st
  /\ calculationHistoryList (press st b) = calculationHistoryList st
  /\ localStorage (press st b) = localStorage st.
Proof.
  intros R. destruct b as [d| |o| | | |]; unfold press, click; cbn [state_of].
  - unfold appendNumber. destruct (waitingForSecondOperand st); repeat split.
  - unfold appendDecimal. destruct (waitingForSecondOperand st); [repeat split |].
    destruct (Str.includes "." (currentInput st)); repeat split.
  - unfold resolves in R. unfold handleOperator, handleOperatorWith.
    destruct (operator st) as [o'|]; destruct (waitingForSecondOperand st);
      destruct (is_empty_string (previousInput st)); try discriminate;
      repeat split.
  - unfold resolves in R. unfold calculateResult, calculateResultWith.
    destruct (operator st) as [o'|]; destruct (waitingForSecondOperand st);
      try discriminate; repeat split.
  - repeat split.
  - repeat split.
  - repeat split.
Qed.

(** X4.  A click changes the history, the list or the storage only
    when it resolves a pending operation: every other click (a digit, the
    point, clear, sign, percent, equals or an operator without a selected
    operator or with the second operand still awaited, an operator while
    the previous input is empty) leaves all three as they were. *)
Theorem history_untouched (st : State) (b : Button) :
  resolves b st = false ->
  history (press st b) = history st
  /\ calculationHistoryList (press st b) = calculationHistoryList st
  /\ localStorage (press st b) = localStorage st.
Proof. apply press_untouched. Qed.

Lemma history_untouched_witness :
  history (press (fresh ∅) BEquals) = JArr nil.
Proof.
  rewrite (proj1 (history_untouched (fresh ∅) BEquals eq_refl)). reflexivity.
Defined.

(** ** The displays *)

Lemma synced_updateDisplay (st : State) : synced (updateDisplay st).
Proof. split; reflexivity. Qed.

Lemma synced_recorded (expression : string) (result : Prim) (st : State) :
  synced st -> synced (state_of (addToHistory expression result st)).
Proof.
  intros [H1 H2].
  destruct (HistoryFacts.addToHistory_frame expression result st)
    as (Hc & Ho & Hp & _ & Hd & Hh).
  unfold synced. now rewrite Hc, Ho, Hp, Hd, Hh.
Qed.

(** X5.  The two displays follow the variables: a start that returns
    leaves the lower display showing [currentInput] and the upper one
    [previousInput] with the operator, and every button and the clearing
    of the history keep it so, also where a handler throws. *)
Theorem displays_follow :
  (forall (storage : gmap string string) (st : State),
      start storage = Done st -> synced st)
  /\ (forall (st : State) (b : Button), synced st -> synced (press st b))
  /\ (forall st : State, synced st -> synced (state_of (clearAllHistory st))).
Proof.
  split; [|split].
  - intros storage st H. unfold start in H.
    destruct (loadHistory (fresh storage)) as [st1|e st1]; cbn [and_then] in H;
      [|discriminate].
    injection H as <-. apply synced_updateDisplay.
  - intros st b S. destruct b as [d| |o| | | |]; unfold press, click;
      cbn [state_of]; try apply synced_updateDisplay.
    + unfold handleOperator, handleOperatorWith.
      destruct (operator st) as [o'|] eqn:Ho;
        destruct (waitingForSecondOperand st) eqn:Hw;
        destruct (is_empty_string (previousInput st));
        try apply synced_updateDisplay;
        try (destruct S as [S1 S2]; split; [exact S1 | reflexivity]).
      pose proof (synced_recorded
                    (expression_of o'
                       (performCalculation o' (parseFloat (previousInput st))
                          (Num.parseFloat (currentInput st))) st)
                    (performCalculation o' (parseFloat (previousInput st))
                       (Num.parseFloat (currentInput st))) st S) as F.
      destruct (addToHistory _ _ st) as [st1|e st1]; cbn [and_then state_of] in *;
        [apply synced_updateDisplay | exact F].
    + unfold calculateResult, calculateResultWith.
      destruct (operator st) as [o'|] eqn:Ho; [|exact S].
      destruct (waitingForSecondOperand st) eqn:Hw; [exact S |].
      pose proof (synced_recorded
                    (expression_of o'
                       (performCalculation o' (parseFloat (previousInput st))
                          (Num.parseFloat (currentInput st))) st)
                    (performCalculation o' (parseFloat (previousInput st))
                       (Num.parseFloat (currentInput st))) st S) as F.
      destruct (addToHistory _ _ st) as [st1|e st1]; cbn [and_then state_of] in *;
        [apply synced_updateDisplay | exact F].
  - intros st [S1 S2]. unfold clearAllHistory.
    destruct (HistoryFacts.renderHistory_frame
                (saveHistory (set_history (JArr nil) st))) as [l ->].
    split; [exact S1 | exact S2].
Qed.

Lemma displays_follow_witness :
  synced (press (state_of (start ∅)) (BOperator Subtract)).
Proof.
  apply (proj1 (proj2 displays_follow)).
  apply (proj1 displays_follow ∅). reflexivity.
Defined.

(** The start of the model is the start on empty markup. *)
Lemma start_page (storage : gmap string string) :
  start storage = start_on (page "" "" nil storage).
Proof. reflexivity. Qed.



(** ** Operator, previous input and flag *)

Lemma is_empty_string_false (v : Prim) :
  is_empty_string v = false -> v <> PStr "".
Proof. intros H ->. discriminate. Qed.

Lemma is_empty_string_true (v : Prim) :
  is_empty_string v = true -> v = PStr "".
Proof.
  destruct v as [x|s]; [discriminate |]. simpl.
  destruct (String.eqb_spec s ""); [now subst | discriminate].
Qed.

Lemma calculation_kind (o : Operator) (a b : Num.t) :
  (exists x, performCalculation o a b = PNum x)
  \/ performCalculation o a b = PStr "Error".
Proof.
  destruct o; cbn [performCalculation]; try (left; eexists; reflexivity).
  destruct (Num.neqb b Num.zero); [left; eexists; reflexivity | now right].
Qed.

Lemma coupled_kept (st st' : State) :
  operator st' = operator st -> previousInput st' = previousInput st ->
  (waitingForSecondOperand st' = true -> waitingForSecondOperand st = true) ->
  coupled st -> coupled st'.
Proof.
  intros Ho Hp Hw (C1 & C2 & C3). unfold coupled.
  rewrite Ho, Hp. split; [exact C1 |]. split; [|exact C3].
  intros H. apply C2. now apply Hw.
Qed.

Lemma coupled_set (o : Operator) (v : Prim) (st : State) :
  operator st = Some o -> v <> PStr "" ->
  (exists x, v = PNum x) \/ v = PStr "Error" ->
  previousInput st = v -> coupled st.
Proof.
  intros Ho Hv Hk Hp. unfold coupled. rewrite Ho, Hp.
  split; [split; [discriminate | intros E; now destruct Hv] |].
  split; [discriminate |]. tauto.
Qed.

Lemma coupled_reset (st : State) :
  operator st = None -> previousInput st = PStr "" ->
  waitingForSecondOperand st = false -> coupled st.
Proof.
  intros Ho Hp Hw. unfold coupled. rewrite Ho, Hp, Hw.
  split; [tauto |]. split; [discriminate | tauto].
Qed.

Lemma coupled_press (st : State) (b : Button) : coupled st -> coupled (press st b).
Proof.
  intros C. destruct b as [d| |o| | | |]; unfold press, click; cbn [state_of].
  - apply (coupled_kept st); try exact C;
      unfold appendNumber; destruct (waitingForSecondOperand st) eqn:E;
      try reflexivity; cbn; congruence.
  - apply (coupled_kept st); try exact C;
      unfold appendDecimal; destruct (waitingForSecondOperand st) eqn:E;
      try reflexivity; try (cbn; congruence);
      destruct (Str.includes "." (currentInput st)); try reflexivity;
      cbn; congruence.
  - unfold handleOperator, handleOperatorWith.
    destruct C as (C1 & C2 & C3).
    destruct (operator st) as [o'|] eqn:Ho;
      destruct (waitingForSecondOperand st) eqn:Hw;
      destruct (is_empty_string (previousInput st)) eqn:He;
      cbn [state_of];
      try (apply (coupled_set o (previousInput st)); try reflexivity;
           [ now apply is_empty_string_false
           | destruct C3 as [C3|[C3|C3]]; [now left | | now right];
             apply is_empty_string_false in He; contradiction ]);
      try (apply (coupled_set o (PNum (Num.parseFloat (currentInput st))));
           try reflexivity; [discriminate | left; eexists; reflexivity]).
    + apply is_empty_string_true in He.
      apply (coupled_set o (previousInput st)); try reflexivity.
      * intros E. apply C1 in E. discriminate.
      * destruct C3 as [C3|[C3|C3]]; [now left | | now right].
        apply C1 in C3. discriminate.
    + set (calculation := performCalculation o' (parseFloat (previousInput st))
                            (Num.parseFloat (currentInput st))).
      pose proof (HistoryFacts.addToHistory_frame
                    (expression_of o' calculation st) calculation st)
        as (_ & Fo & Fp & Fw & _).
      destruct (addToHistory _ _ st) as [st1|e st1]; cbn [and_then state_of] in *.
      * apply (coupled_set o calculation); try reflexivity.
        -- destruct (calculation_kind o' (parseFloat (previousInput st))
                       (Num.parseFloat (currentInput st))) as [[x E]|E];
             fold calculation in E; rewrite E; discriminate.
        -- apply calculation_kind.
      * apply (coupled_kept st); try assumption; [congruence |].
        unfold coupled. rewrite Ho, Hw.
        split; [exact C1 | split; [exact C2 | exact C3]].
  - unfold calculateResult, calculateResultWith.
    destruct (operator st) as [o'|] eqn:Ho; [|exact C].
    destruct (waitingForSecondOperand st) eqn:Hw; [exact C |].
    set (calculation := performCalculation o' (parseFloat (previousInput st))
                          (Num.parseFloat (currentInput st))).
    pose proof (HistoryFacts.addToHistory_frame
                  (expression_of o' calculation st) calculation st)
      as (_ & Fo & Fp & Fw & _).
    destruct (addToHistory _ _ st) as [st1|e st1]; cbn [and_then state_of] in *.
    + now apply coupled_reset.
    + apply (coupled_kept st); try assumption. congruence.
  - now apply coupled_reset.
  - apply (coupled_kept st); try exact C; try reflexivity. intros H; exact H.
  - apply (coupled_kept st); try exact C; try reflexivity. intros H; exact H.
Qed.

Lemma reachable_coupled (st : State) : reachable st -> coupled st.
Proof.
  induction 1 as [storage | st b _ IH | st _ IH].
  - destruct (HistoryFacts.start_vars storage) as (_ & Ho & Hp & Hw).
    now apply coupled_reset.
  - now apply coupled_press.
  - apply (coupled_kept st); try exact IH;
      unfold clearAllHistory;
      destruct (HistoryFacts.renderHistory_frame
                  (saveHistory (set_history (JArr nil) st))) as [l ->];
      try reflexivity.
    intros H; exact H.
Qed.

(** X7.  In every reachable state the operator is unset exactly when
    [previousInput] is the empty string, a second operand is awaited only
    while an operator is selected, and [previousInput] is the empty
    string, a number or ['Error'].  So [handleOperator] never meets a
    previous input without an operator, and equals never evaluates on an
    empty previous input. *)
Theorem operator_previous_coupled (st : State) :
  reachable st -> coupled st.
Proof. apply reachable_coupled. Qed.

Lemma operator_previous_coupled_witness :
  coupled (presses (BNumber D4 :: BOperator Divide :: BNumber D0
                      :: BOperator Add :: nil) (state_of (start ∅))).
Proof.
  apply operator_previous_coupled.
  apply reachable_presses. apply reach_start.
Defined.

(** ** Typing a number *)

Lemma presses_app (bs cs : list Button) (st : State) :
  presses (bs ++ cs)%list st = presses cs (presses bs st).
Proof. apply fold_left_app. Qed.

Lemma presses_digits_waiting (ds : list Digit) (st : State) :
  waitingForSecondOperand st = false ->
  waitingForSecondOperand (presses (List.map BNumber ds) st) = false.
Proof.
  revert st; induction ds as [|d r IH]; intros st H; [exact H |].
  cbn [List.map presses fold_left]. apply IH.
  apply appendNumber_waiting.
Qed.

Lemma entered_cons (ds : list Digit) : exists c s, entered ds = String c s.
Proof.
  unfold entered.
  destruct (typed ds) as [|c s] eqn:E; [exists "0"%char, ""; reflexivity |].
  exists c, s. reflexivity.
Qed.

Lemma includes_digit_text (d : Digit) : Str.includes "." (digit_text d) = false.
Proof. destruct d; reflexivity. Qed.

Lemma includes_app (c : ascii) (a b : string) :
  Str.includes c (a ++ b) = Str.includes c a || Str.includes c b.
Proof.
  induction a as [|x a IH]; [reflexivity |].
  rewrite StrFacts.append_cons. cbn [Str.includes]. rewrite IH.
  apply orb_assoc.
Qed.

Lemma includes_digits_text (ds : list Digit) :
  Str.includes "." (digits_text ds) = false.
Proof.
  induction ds as [|d r IH]; [reflexivity |].
  cbn [digits_text]. now rewrite includes_app, includes_digit_text, IH.
Qed.

Lemma includes_entered (ds : list Digit) :
  Str.includes "." (entered ds) = false.
Proof.
  unfold entered. destruct (String.eqb (typed ds) ""); [reflexivity |].
  induction ds as [|d r IH]; [reflexivity |].
  destruct d; try exact IH; apply (includes_digits_text (_ :: r)).
Qed.

(** X8.  The second operand is typed like the first: while a second
    operand is awaited, a non-empty run of digit buttons leaves the
    digits pressed from the first non-zero one on (["0"] while only zeros
    were pressed), whatever the entry showed before, and ends the
    waiting. *)
Theorem second_operand_entered (d : Digit) (ds : list Digit) (st : State) :
  waitingForSecondOperand st = true ->
  currentInput (presses (List.map BNumber (d :: ds)) st) = entered (d :: ds)
  /\ waitingForSecondOperand (presses (List.map BNumber (d :: ds)) st) = false.
Proof.
  intros Hw. cbn [List.map presses fold_left press click state_of].
  change (fold_left press (List.map BNumber ds) (appendNumber (digit_text d) st))
    with (presses (List.map BNumber ds) (appendNumber (digit_text d) st)).
  assert (Hc : currentInput (appendNumber (digit_text d) st) = digit_text d).
  { rewrite appendNumber_currentInput, Hw. reflexivity. }
  split; [|apply presses_digits_waiting, appendNumber_waiting].
  destruct d;
    try (rewrite digits_after;
         [ rewrite Hc; reflexivity
         | apply appendNumber_waiting
         | rewrite Hc; discriminate
         | rewrite Hc; discriminate ]).
  rewrite digits_from_zero; [reflexivity | apply appendNumber_waiting | exact Hc].
Qed.

Lemma second_operand_entered_witness :
  currentInput (presses (List.map BNumber (D0 :: D4 :: D2 :: nil))
                  (press (fresh ∅) (BOperator Add))) = "42".
Proof.
  apply (proj1 (second_operand_entered D0 (D4 :: D2 :: nil)
                  (press (fresh ∅) (BOperator Add)) eq_refl)).
Defined.

Lemma appendDecimal_waiting (st : State) :
  waitingForSecondOperand (appendDecimal st) = false.
Proof.
  unfold appendDecimal. destruct (waitingForSecondOperand st) eqn:E;
    [reflexivity |].
  destruct (Str.includes "." (currentInput st)); exact E.
Qed.

(** X9.  After the start, digits, the point, and more digits leave the
    first digits as a whole number (["0"] if there were none), one point,
    and every later digit as pressed, zeros included; a second point
    pressed while the fraction is typed adds nothing. *)
Theorem decimal_entered (storage : gmap string string) (ds1 ds2 ds3 : list Digit) :
  currentInput
    (presses (List.map BNumber ds1 ++ BDecimal :: List.map BNumber ds2)%list
       (state_of (start storage)))
  = entered ds1 ++ "." ++ digits_text ds2
  /\ currentInput
       (presses (List.map BNumber ds1 ++ BDecimal :: List.map BNumber ds2
                   ++ BDecimal :: List.map BNumber ds3)%list
          (state_of (start storage)))
     = entered ds1 ++ "." ++ digits_text ds2 ++ digits_text ds3.
Proof.
  destruct (HistoryFacts.start_vars storage) as (Hc & _ & _ & Hw).
  set (st0 := state_of (start storage)) in *.
  set (st1 := presses (List.map BNumber ds1) st0).
  assert (H1 : currentInput st1 = entered ds1)
    by (apply digits_from_zero; assumption).
  assert (W1 : waitingForSecondOperand st1 = false)
    by (apply presses_digits_waiting; assumption).
  set (st2 := appendDecimal st1).
  assert (H2 : currentInput st2 = entered ds1 ++ ".").
  { unfold st2. rewrite appendDecimal_currentInput, W1, H1, includes_entered.
    reflexivity. }
  assert (W2 : waitingForSecondOperand st2 = false) by apply appendDecimal_waiting.
  assert (N0 : forall s, entered ds1 ++ "." ++ s <> "0").
  { intros s. destruct (entered_cons ds1) as (c & r & ->).
    destruct r; discriminate. }
  assert (Ne : forall s, entered ds1 ++ "." ++ s <> "").
  { intros s. destruct (entered_cons ds1) as (c & r & ->). discriminate. }
  set (st3 := presses (List.map BNumber ds2) st2).
  assert (H3 : currentInput st3 = entered ds1 ++ "." ++ digits_text ds2).
  { unfold st3. rewrite digits_after; try assumption.
    - rewrite H2. apply StrFacts.append_assoc.
    - rewrite H2. apply (N0 "").
    - rewrite H2. apply (Ne ""). }
  assert (W3 : waitingForSecondOperand st3 = false)
    by (apply presses_digits_waiting; assumption).
  split.
  - rewrite presses_app. cbn [presses fold_left press click state_of].
    exact H3.
  - rewrite presses_app. cbn [presses fold_left press click state_of].
    change (fold_left press (List.map BNumber ds2 ++ BDecimal :: List.map BNumber ds3)%list
              (appendDecimal (fold_left press (List.map BNumber ds1) st0)))
      with (presses (List.map BNumber ds2 ++ BDecimal :: List.map BNumber ds3)%list st2).
    rewrite presses_app. cbn [presses fold_left press click state_of].
    change (fold_left press (List.map BNumber ds3)
              (appendDecimal (fold_left press (List.map BNumber ds2) st2)))
      with (presses (List.map BNumber ds3) (appendDecimal st3)).
    assert (H4 : currentInput (appendDecimal st3) = currentInput st3).
    { rewrite appendDecimal_currentInput, W3, H3, !includes_app.
      cbn [Str.includes Ascii.eqb]. rewrite orb_true_r. reflexivity. }
    rewrite digits_after; fold st1; fold st2; fold st3.
    + rewrite H4, H3, !StrFacts.append_assoc. reflexivity.
    + apply appendDecimal_waiting.
    + rewrite H4, H3. apply N0.
    + rewrite H4, H3. apply Ne.
Qed.

Lemma includes_snoc (c : ascii) (s : string) :
  Str.includes c (s ++ String c "") = true.
Proof.
  rewrite includes_app. cbn [Str.includes]. rewrite Ascii.eqb_refl.
  apply orb_true_r.
Qed.

(** X10.  The decimal button is idempotent in every state: pressing it
    a second time right after the first changes nothing at all. *)
Theorem appendDecimal_idempotent (st : State) :
  appendDecimal (appendDecimal st) = appendDecimal st.
Proof.
  destruct (waitingForSecondOperand st) eqn:Hw.
  - assert (E : appendDecimal st
                = updateDisplay (set_waitingForSecondOperand false
                                   (set_currentInput "0." st))).
    { unfold appendDecimal. now rewrite Hw. }
    rewrite E. reflexivity.
  - destruct (Str.includes "." (currentInput st)) eqn:Hi.
    + assert (E : appendDecimal st = updateDisplay st).
      { unfold appendDecimal. now rewrite Hw, Hi. }
      rewrite E. unfold appendDecimal.
      cbn [waitingForSecondOperand currentInput updateDisplay
           set_historyDisplay set_currentDisplay].
      rewrite Hw, Hi. reflexivity.
    + assert (E : appendDecimal st
                  = updateDisplay (set_currentInput (currentInput st ++ ".") st)).
      { unfold appendDecimal. now rewrite Hw, Hi. }
      rewrite E. unfold appendDecimal.
      cbn [waitingForSecondOperand currentInput updateDisplay
           set_historyDisplay set_currentDisplay set_currentInput].
      rewrite Hw, includes_snoc. reflexivity.
Qed.

(** ** Operators and equals *)

(** A log stays a log under every button. *)
Lemma press_log (b : Button) (l : list (string * string)) (st : State) :
  history st = log l -> exists l', history (press st b) = log l'.
Proof.
  intros H. destruct b as [d| |o| | | |]; unfold press, click; cbn [state_of];
    try (exists l; exact H).
  - exists l. now rewrite appendNumber_history.
  - exists l. unfold appendDecimal. destruct (waitingForSecondOperand st);
      [exact H |]. destruct (Str.includes "." (currentInput st)); exact H.
  - unfold handleOperator, handleOperatorWith.
    destruct (operator st) as [o'|]; destruct (waitingForSecondOperand st);
      destruct (is_empty_string (previousInput st)); try (exists l; exact H).
    rewrite (HistoryFacts.addToHistory_log _ _ l st H). eexists; reflexivity.
  - unfold calculateResult, calculateResultWith.
    destruct (operator st) as [o'|]; destruct (waitingForSecondOperand st);
      try (exists l; exact H).
    rewrite (HistoryFacts.addToHistory_log _ _ l st H). eexists; reflexivity.
Qed.

(** X11.  Of a run of operator buttons pressed one after another only
    the last counts: on a log, the run leaves exactly the state that its
    last button alone would have left. *)
Theorem last_operator_wins (os : list Operator) (o : Operator)
        (l : list (string * string)) (st : State) :
  history st = log l ->
  presses (List.map BOperator (os ++ o :: nil)) st = press st (BOperator o).
Proof.
  revert l st; induction os as [|o1 r IH]; intros l st H; [reflexivity |].
  cbn [app List.map presses fold_left].
  change (fold_left press (List.map BOperator (r ++ o :: nil))
            (press st (BOperator o1)))
    with (presses (List.map BOperator (r ++ o :: nil)) (press st (BOperator o1))).
  destruct (press_log (BOperator o1) l st H) as [l' H'].
  rewrite (IH l' _ H'). now apply (press_operator_twice o1 o l).
Qed.

Lemma last_operator_wins_witness :
  presses (List.map BOperator (Add :: Multiply :: Divide :: Subtract :: nil))
    (press (fresh ∅) (BNumber D9))
  = press (press (fresh ∅) (BNumber D9)) (BOperator Subtract).
Proof.
  apply (last_operator_wins (Add :: Multiply :: Divide :: nil) Subtract nil).
  reflexivity.
Defined.

(** X12.  Equals is idempotent on a log: pressed again right away it
    records nothing and changes nothing, because the first press has
    unset the operator. *)
Theorem equals_idempotent (l : list (string * string)) (st : State) :
  history st = log l ->
  press (press st BEquals) BEquals = press st BEquals.
Proof.
  intros H. unfold press, click, calculateResult, calculateResultWith.
  destruct (operator st) as [o|] eqn:Ho.
  - destruct (waitingForSecondOperand st) eqn:Hw.
    + cbn [state_of]. now rewrite Ho, Hw.
    + rewrite (HistoryFacts.addToHistory_log _ _ l st H). reflexivity.
  - cbn [state_of]. now rewrite Ho.
Qed.

Lemma equals_idempotent_witness :
  press (press (presses (BNumber D2 :: BOperator Multiply :: BNumber D3 :: nil)
                  (fresh ∅)) BEquals) BEquals
  = press (presses (BNumber D2 :: BOperator Multiply :: BNumber D3 :: nil)
             (fresh ∅)) BEquals.
Proof.
  apply (equals_idempotent nil). reflexivity.
Defined.



(** ** Division by zero and other edges *)

Lemma parseFloat_Error_digit (d : Digit) :
  Num.parseFloat ("Error" ++ digit_text d) = Num.NaN.
Proof. destruct d; vm_compute; reflexivity. Qed.

(** X14.  Equals on a division whose second operand reads as zero (of
    either sign) writes ['Error'] into the entry and records
    [previousInput / currentInput = Error] with result ['Error'].  The
    entry is then ordinary text: a digit is appended to it, the sign and
    percent buttons turn it into ["NaN"], and clear resets it to
    ["0"]. *)
Theorem division_by_zero_entry (s : bool) (l : list (string * string))
        (st : State) :
  operator st = Some Divide -> waitingForSecondOperand st = false ->
  history st = log l -> Num.parseFloat (currentInput st) = S754_zero s ->
  exists st',
    calculateResult st = Done st'
    /\ currentInput st' = "Error"
    /\ currentDisplay st' = "Error"
    /\ history st'
       = log (pushed (ToString (previousInput st) ++ " / " ++ currentInput st
                        ++ " = Error", "Error") l)
    /\ (forall d : Digit,
           currentInput (press st' (BNumber d)) = "Error" ++ digit_text d
           /\ Num.parseFloat (currentInput (press st' (BNumber d))) = Num.NaN)
    /\ currentInput (press st' BNegative) = "NaN"
    /\ currentInput (press st' BPercent) = "NaN"
    /\ currentInput (press st' BClear) = "0".
Proof.
  intros Ho Hw H Hz.
  rewrite (calculateResult_log Divide l st Ho Hw H). rewrite Hz.
  change (performCalculation Divide (parseFloat (previousInput st)) (S754_zero s))
    with (PStr "Error").
  eexists. split; [reflexivity |]. split; [reflexivity |].
  split; [reflexivity |]. split; [reflexivity |]. split; [|split; [|split]].
  - intros d. unfold press, click. cbn [state_of].
    assert (E : currentInput
                  (appendNumber (digit_text d)
                     (updateDisplay
                        (set_waitingForSecondOperand false
                           (set_previousInput (PStr "")
                              (set_operator None
                                 (set_currentInput (ToString (PStr "Error"))
                                    (set_calculationHistoryList
                                       (shown
                                          (pushed
                                             (ToString (previousInput st) ++ " "
                                                ++ symbol Divide ++ " "
                                                ++ currentInput st ++ " = "
                                                ++ ToString (PStr "Error"),
                                              ToString (PStr "Error")) l))
                                       (saveHistory
                                          (set_history
                                             (log
                                                (pushed
                                                   (ToString (previousInput st)
                                                      ++ " " ++ symbol Divide
                                                      ++ " " ++ currentInput st
                                                      ++ " = "
                                                      ++ ToString (PStr "Error"),
                                                    ToString (PStr "Error")) l))
                                             st)))))))))
                = "Error" ++ digit_text d).
    { rewrite appendNumber_currentInput. reflexivity. }
    rewrite E. split; [reflexivity | apply parseFloat_Error_digit].
  - vm_compute. reflexivity.
  - vm_compute. reflexivity.
  - reflexivity.
Qed.

Lemma division_by_zero_entry_witness :
  exists st',
    calculateResult (presses (BNumber D8 :: BOperator Divide :: BNumber D0 :: nil)
                       (fresh ∅)) = Done st'
    /\ currentInput st' = "Error".
Proof.
  destruct (division_by_zero_entry false nil
              (presses (BNumber D8 :: BOperator Divide :: BNumber D0 :: nil)
                 (fresh ∅)))
    as (st' & H1 & H2 & _); try reflexivity.
  exists st'. split; [exact H1 | exact H2].
Defined.

(** X15.  The sign and percent buttons on an entry that reads as zero
    show ["0"] (never a signed zero); on an entry [parseFloat] cannot
    read they show ["NaN"]; and on an infinite entry the sign button
    shows the other infinity while percent leaves it as it is. *)
Theorem sign_percent_edges (st : State) :
  (forall s, Num.parseFloat (currentInput st) = S754_zero s ->
             currentInput (toggleNegative st) = "0"
             /\ currentInput (calculatePercentage st) = "0")
  /\ (Num.parseFloat (currentInput st) = Num.NaN ->
      currentInput (toggleNegative st) = "NaN"
      /\ currentInput (calculatePercentage st) = "NaN")
  /\ (forall s, Num.parseFloat (currentInput st) = S754_infinity s ->
                currentInput (toggleNegative st)
                = (if s then "Infinity" else "-Infinity")
                /\ currentInput (calculatePercentage st)
                   = (if s then "-Infinity" else "Infinity")).
Proof.
  split; [|split].
  - intros s H. unfold toggleNegative, calculatePercentage.
    cbn [currentInput updateDisplay set_historyDisplay set_currentDisplay
         set_currentInput]. rewrite H. split; reflexivity.
  - intros H. unfold toggleNegative, calculatePercentage.
    cbn [currentInput updateDisplay set_historyDisplay set_currentDisplay
         set_currentInput]. rewrite H. split; reflexivity.
  - intros s H. unfold toggleNegative, calculatePercentage.
    cbn [currentInput updateDisplay set_historyDisplay set_currentDisplay
         set_currentInput]. rewrite H. destruct s; split; reflexivity.
Qed.

Lemma sign_percent_edges_witness :
  currentInput (toggleNegative (fresh ∅)) = "0"
  /\ currentInput (calculatePercentage (fresh ∅)) = "0".
Proof.
  apply (proj1 (sign_percent_edges (fresh ∅)) false). reflexivity.
Defined.

(** ** A stored value that is no list of records *)

(** X16.  [loadHistory] adopts whatever value the stored text parses
    to, checked by nothing but the rendering: after the start the history
    is that value, whether the rendering threw or not. *)
Theorem start_adopts (storage : gmap string string) (s : string) (v : JSValue) :
  storage !! historyKey = Some s -> s <> "" -> JSON.parse s = Some v ->
  history (state_of (start storage)) = v
  /\ localStorage (state_of (start storage)) = storage.
Proof.
  intros H Hs Hp. unfold start, loadHistory. cbn [fresh localStorage].
  rewrite H. destruct (String.eqb_spec s ""); [contradiction |]. rewrite Hp.
  destruct (HistoryFacts.renderHistory_frame (set_history v (fresh storage)))
    as [l Hl].
  destruct (renderHistory (set_history v (fresh storage))) as [st1|e st1];
    simpl in Hl; subst st1; split; reflexivity.
Qed.

Lemma start_adopts_witness :
  history (state_of (start {[ historyKey := "null" ]})) = JNull.
Proof.
  apply (proj1 (start_adopts {[ historyKey := "null" ]} "null" JNull
                  (lookup_singleton_eq _ _) ltac:(discriminate) eq_refl)).
Defined.

(** X17.  While the history is no array, nothing can be recorded:
    [addToHistory] throws a TypeError before it changes anything, so
    equals with a pending operation throws too and leaves the entry, the
    operator and the flag as they were, the result never shown.  Clearing
    the history always returns and makes the history the empty array
    again. *)
Theorem foreign_history_blocks (st : State) :
  is_array (history st) = false ->
  (forall (expression : string) (result : Prim),
      addToHistory expression result st = Throw TypeError st)
  /\ (forall o : Operator,
         operator st = Some o -> waitingForSecondOperand st = false ->
         calculateResult st = Throw TypeError st
         /\ forall o2 : Operator,
             is_empty_string (previousInput st) = false ->
             handleOperator o2 st = Throw TypeError st)
  /\ exists st1, clearAllHistory st = Done st1 /\ history st1 = JArr nil.
Proof.
  intros H.
  assert (A : forall expression result,
             addToHistory expression result st = Throw TypeError st).
  { intros expression result. unfold addToHistory.
    destruct (history st); try reflexivity. discriminate. }
  split; [exact A |]. split.
  - intros o Ho Hw. split.
    + unfold calculateResult, calculateResultWith. rewrite Ho, Hw, A. reflexivity.
    + intros o2 He. unfold handleOperator, handleOperatorWith.
      rewrite Ho, Hw, He, A. reflexivity.
  - unfold clearAllHistory.
    rewrite (HistoryFacts.renderHistory_log nil) by reflexivity.
    eexists. split; reflexivity.
Qed.

Lemma foreign_history_blocks_witness :
  addToHistory "1 + 1 = 2" (PStr "2") (set_history JNull (fresh ∅))
  = Throw TypeError (set_history JNull (fresh ∅)).
Proof.
  apply (proj1 (foreign_history_blocks (set_history JNull (fresh ∅)) eq_refl)).
Defined.

(** ** Rendering *)

Lemma render_items_stops (l : list (string * string)) (bad : JSValue)
      (rest : list JSValue) (st : State) :
  item_html bad = None ->
  render_items (List.map (fun e => entry (fst e) (snd e)) l ++ bad :: rest)%list st
  = Throw TypeError
      (set_calculationHistoryList
         (calculationHistoryList st ++ List.map li_of l)%list st).
Proof.
  intros Hb. revert st; induction l as [|e r IH]; intros st.
  - cbn [List.map app render_items]. rewrite Hb, app_nil_r.
    now rewrite HistoryFacts.set_list_same.
  - cbn [List.map app render_items].
    rewrite HistoryFacts.item_html_entry. cbn [li_of]. rewrite IH. f_equal.
    cbn [calculationHistoryList set_calculationHistoryList].
    rewrite <- app_assoc. reflexivity.
Qed.

(** X18.  [renderHistory] shows a log completely: the placeholder for
    the empty one, else one item per record, in order.  At the first
    element that is no record (not an object with a string [expression]
    whose [result] converts to text) it throws a TypeError, with the
    items of the records before it already in the list and nothing of
    what follows. *)
Theorem renderHistory_outcomes (l : list (string * string)) (st : State) :
  (history st = log l ->
   renderHistory st = Done (set_calculationHistoryList (shown l) st))
  /\ (forall (bad : JSValue) (rest : list JSValue),
         item_html bad = None ->
         history st
         = JArr (List.map (fun e => entry (fst e) (snd e)) l ++ bad :: rest)%list ->
         renderHistory st
         = Throw TypeError (set_calculationHistoryList (List.map li_of l) st)).
Proof.
  split; [apply HistoryFacts.renderHistory_log |].
  intros bad rest Hb H. unfold renderHistory. rewrite H.
  destruct (List.map (fun e => entry (fst e) (snd e)) l ++ bad :: rest)%list
    as [|x xs] eqn:E.
  { destruct l; discriminate. }
  rewrite <- E, (render_items_stops l bad rest _ Hb). reflexivity.
Qed.

Lemma renderHistory_outcomes_witness :
  renderHistory
    (set_history (JArr (entry "1 + 1 = 2" "2" :: JNull :: entry "x" "y" :: nil))
       (fresh ∅))
  = Throw TypeError
      (set_calculationHistoryList (li_of ("1 + 1 = 2", "2") :: nil)
         (set_history (JArr (entry "1 + 1 = 2" "2" :: JNull :: entry "x" "y" :: nil))
            (fresh ∅))).
Proof.
  apply (proj2 (renderHistory_outcomes (("1 + 1 = 2", "2") :: nil) _)
               JNull (entry "x" "y" :: nil)); reflexivity.
Defined.

(** X19.  [renderHistory] starts from an empty list and reads only the
    history: what the list showed before makes no difference to how it
    ends, and rendering again right away ends the same way in the same
    state. *)
Theorem renderHistory_again (st : State) :
  (forall shownBefore : list Node,
      renderHistory (set_calculationHistoryList shownBefore st) = renderHistory st)
  /\ renderHistory (state_of (renderHistory st)) = renderHistory st.
Proof.
  assert (A : forall shownBefore,
             renderHistory (set_calculationHistoryList shownBefore st)
             = renderHistory st) by reflexivity.
  split; [exact A |].
  destruct (HistoryFacts.renderHistory_frame st) as [l ->]. apply A.
Qed.

(** ** Clear *)

Lemma clearCalculator_after_edit (b : Button) (st : State) :
  edits b = true -> clearCalculator (press st b) = clearCalculator st.
Proof.
  intros H. destruct b as [d| |o| | | |]; try discriminate;
    unfold press, click; cbn [state_of]; try reflexivity.
  - unfold appendNumber. destruct (waitingForSecondOperand st); reflexivity.
  - unfold appendDecimal. destruct (waitingForSecondOperand st); [reflexivity |].
    destruct (Str.includes "." (currentInput st)); reflexivity.
Qed.

(** X20.  Clear forgets every edit of the entry: after any run of
    digits, points, sign and percent presses (and clears) it leaves
    exactly the state it would have left without them, with ["0"] in the
    entry, no operator, no previous input and nothing awaited, and with
    the history, the list and the storage as they were. *)
Theorem clearCalculator_forgets (bs : list Button) (st : State) :
  forallb edits bs = true ->
  clearCalculator (presses bs st) = clearCalculator st
  /\ currentInput (clearCalculator (presses bs st)) = "0"
  /\ operator (clearCalculator (presses bs st)) = None
  /\ previousInput (clearCalculator (presses bs st)) = PStr ""
  /\ waitingForSecondOperand (clearCalculator (presses bs st)) = false
  /\ history (clearCalculator (presses bs st)) = history st
  /\ calculationHistoryList (clearCalculator (presses bs st))
     = calculationHistoryList st
  /\ localStorage (clearCalculator (presses bs st)) = localStorage st.
Proof.
  intros H.
  assert (E : clearCalculator (presses bs st) = clearCalculator st).
  { revert st; induction bs as [|b r IH]; intros st; [reflexivity |].
    cbn [forallb] in H. apply andb_prop in H as [Hb Hr].
    cbn [presses fold_left].
    change (fold_left press r (press st b)) with (presses r (press st b)).
    rewrite (IH Hr). now apply clearCalculator_after_edit. }
  rewrite E. repeat split.
Qed.

Lemma clearCalculator_forgets_witness :
  clearCalculator (presses (BNumber D1 :: BDecimal :: BNumber D5 :: BNegative
                              :: BPercent :: nil) (fresh ∅))
  = clearCalculator (fresh ∅).
Proof.
  apply (proj1 (clearCalculator_forgets
                  (BNumber D1 :: BDecimal :: BNumber D5 :: BNegative
                     :: BPercent :: nil) (fresh ∅) eq_refl)).
Defined.

(** ** What the list shows *)

Module ListFacts.

Import StrFacts.

Lemma solid_char_code (c : ascii) :
  solid_char c = true -> 33 <= Str.code c <= 126 /\ Str.code c <> 61.
Proof.
  unfold solid_char. cbv zeta. intros H.
  apply andb_prop in H as [H H3]. apply andb_prop in H as [H1 H2].
  apply Z.leb_le in H1. apply Z.leb_le in H2.
  apply negb_true_iff, Z.eqb_neq in H3. lia.
Qed.

Lemma solid_app (a b : string) : solid (a ++ b) = solid a && solid b.
Proof.
  induction a as [|c a IH]; [reflexivity |].
  rewrite append_cons. cbn [solid]. rewrite IH. apply andb_assoc.
Qed.

Lemma solid_take (n : nat) (s : string) :
  solid s = true -> solid (Str.take n s) = true.
Proof.
  revert s; induction n as [|n IH]; intros [|c s] H; try reflexivity.
  cbn [solid Str.take] in *. apply andb_prop in H as [Hc Hs].
  now rewrite Hc, (IH s Hs).
Qed.

Lemma solid_drop (n : nat) (s : string) :
  solid s = true -> solid (Str.drop n s) = true.
Proof.
  revert s; induction n as [|n IH]; intros [|c s] H; try exact H.
  cbn [solid Str.drop] in *. apply andb_prop in H as [_ Hs]. now apply IH.
Qed.

Lemma solid_zeros (n : nat) : solid (Str.zeros n) = true.
Proof. induction n as [|n IH]; [reflexivity | exact IH]. Qed.

Lemma solid_uint (u : Decimal.uint) : solid (NilEmpty.string_of_uint u) = true.
Proof. induction u; [reflexivity | exact IHu ..]. Qed.

Lemma solid_dec_string (z : Z) : solid (Num.dec_string z) = true.
Proof.
  unfold Num.dec_string, NilZero.string_of_uint.
  destruct (N.to_uint (Z.to_N z)) eqn:E; try reflexivity;
    rewrite <- E; apply solid_uint.
Qed.

Lemma dec_string_cons (z : Z) : exists c r, Num.dec_string z = String c r.
Proof.
  unfold Num.dec_string, NilZero.string_of_uint.
  destruct (N.to_uint (Z.to_N z)); cbn [NilEmpty.string_of_uint];
    eexists; eexists; reflexivity.
Qed.

Lemma append_cons_r (a : string) (c : ascii) (b : string) :
  a ++ String c b <> "".
Proof. destruct a; discriminate. Qed.

Lemma solid_format_decimal (s n : Z) :
  solid (Num.format_decimal s n) = true /\ Num.format_decimal s n <> "".
Proof.
  unfold Num.format_decimal.
  pose proof (solid_dec_string s) as Hds.
  destruct (dec_string_cons s) as (c0 & r0 & Hc).
  pose proof (solid_take 1 _ Hds) as Ht1. pose proof (solid_drop 1 _ Hds) as Hd1.
  pose proof (solid_take (Z.to_nat n) _ Hds) as Htn.
  pose proof (solid_drop (Z.to_nat n) _ Hds) as Hdn.
  set (ds := Num.dec_string s) in *.
  set (t1 := Str.take 1 ds) in *. set (d1 := Str.drop 1 ds) in *.
  set (tn := Str.take (Z.to_nat n) ds) in *.
  set (dn := Str.drop (Z.to_nat n) ds) in *.
  clearbody t1 d1 tn dn.
  repeat match goal with |- context [if ?b then _ else _] => destruct b end;
    (split;
     [ rewrite ?solid_app, ?solid_zeros, ?solid_dec_string, ?Hds, ?Ht1, ?Hd1,
         ?Htn, ?Hdn; reflexivity
     | try apply append_cons_r; try discriminate;
       try (rewrite Hc; discriminate) ]).
Qed.

Lemma solid_to_string (x : Num.t) :
  solid (Num.to_string x) = true /\ Num.to_string x <> "".
Proof.
  assert (P : forall m e, solid (Num.to_string_pos m e) = true
                          /\ Num.to_string_pos m e <> "").
  { intros m e. unfold Num.to_string_pos.
    destruct (Num.frac_of m e) as [num den].
    destruct (Num.shortest _ _ _ _ _ _) as [s n'].
    apply solid_format_decimal. }
  destruct x as [s|s| |s m e]; cbn [Num.to_string];
    try (destruct s; (split; [reflexivity | discriminate]));
    try (split; [reflexivity | discriminate]).
  destruct s; [|apply P]. destruct (P m e) as [P1 P2].
  split; [now rewrite solid_app, P1 | discriminate].
Qed.

Lemma solid_calculation (o : Operator) (a b : Num.t) :
  solid (ToString (performCalculation o a b)) = true
  /\ ToString (performCalculation o a b) <> "".
Proof.
  destruct o; cbn [performCalculation ToString]; try apply solid_to_string.
  destruct (Num.neqb b Num.zero);
    [apply solid_to_string | split; [reflexivity | discriminate]].
Qed.

Lemma solid_digit_text (d : Digit) : solid (digit_text d) = true.
Proof. destruct d; reflexivity. Qed.

Lemma solid_no_equals (s : string) :
  solid s = true -> Str.includes "=" s = false.
Proof.
  induction s as [|c s IH]; [reflexivity |].
  cbn [solid Str.includes]. intros H. apply andb_prop in H as [Hc Hs].
  rewrite (IH Hs), orb_false_r.
  apply solid_char_code in Hc as (_ & Hc).
  apply Ascii.eqb_neq. intros ->. now apply Hc.
Qed.

(** The entry stays firm under every button. *)
Lemma firm_press (st : State) (b : Button) : firm st -> firm (press st b).
Proof.
  intros (Hs & Hn & Hp).
  destruct b as [d| |o| | | |]; unfold press, click; cbn [state_of].
  - split; [|split].
    + rewrite appendNumber_currentInput.
      destruct (waitingForSecondOperand st); [apply solid_digit_text |].
      destruct (String.eqb (currentInput st) "0"); [apply solid_digit_text |].
      now rewrite solid_app, Hs, solid_digit_text.
    + rewrite appendNumber_currentInput.
      destruct (digit_text_cons d) as [c ->].
      destruct (waitingForSecondOperand st); [discriminate |].
      destruct (String.eqb (currentInput st) "0"); [discriminate |].
      apply append_cons_r.
    + unfold appendNumber. destruct (waitingForSecondOperand st); exact Hp.
  - split; [|split].
    + rewrite appendDecimal_currentInput.
      destruct (waitingForSecondOperand st); [reflexivity |].
      destruct (Str.includes "." (currentInput st)); [exact Hs |].
      now rewrite solid_app, Hs.
    + rewrite appendDecimal_currentInput.
      destruct (waitingForSecondOperand st); [discriminate |].
      destruct (Str.includes "." (currentInput st)); [exact Hn |].
      apply append_cons_r.
    + unfold appendDecimal. destruct (waitingForSecondOperand st); [exact Hp |].
      destruct (Str.includes "." (currentInput st)); exact Hp.
  - unfold handleOperator, handleOperatorWith.
    destruct (operator st) as [o'|] eqn:Ho;
      destruct (waitingForSecondOperand st) eqn:Hw;
      destruct (is_empty_string (previousInput st)) eqn:He;
      try (split; [exact Hs | split; [exact Hn | exact Hp]]);
      try (split; [exact Hs | split; [exact Hn | apply solid_to_string]]).
    set (calculation := performCalculation o' (parseFloat (previousInput st))
                          (Num.parseFloat (currentInput st))).
    pose proof (HistoryFacts.addToHistory_frame
                  (expression_of o' calculation st) calculation st)
      as (Fc & _ & Fp & _).
    destruct (solid_calculation o' (parseFloat (previousInput st))
                (Num.parseFloat (currentInput st))) as [S1 S2].
    destruct (addToHistory _ _ st) as [st1|e st1]; cbn [and_then state_of] in *.
    + split; [exact S1 | split; [exact S2 | exact S1]].
    + unfold firm. rewrite Fc, Fp. tauto.
  - unfold calculateResult, calculateResultWith.
    destruct (operator st) as [o'|] eqn:Ho;
      [|split; [exact Hs | split; [exact Hn | exact Hp]]].
    destruct (waitingForSecondOperand st) eqn:Hw;
      [split; [exact Hs | split; [exact Hn | exact Hp]] |].
    set (calculation := performCalculation o' (parseFloat (previousInput st))
                          (Num.parseFloat (currentInput st))).
    pose proof (HistoryFacts.addToHistory_frame
                  (expression_of o' calculation st) calculation st)
      as (Fc & _ & Fp & _).
    destruct (solid_calculation o' (parseFloat (previousInput st))
                (Num.parseFloat (currentInput st))) as [S1 S2].
    destruct (addToHistory _ _ st) as [st1|e st1]; cbn [and_then state_of] in *.
    + split; [exact S1 | split; [exact S2 | reflexivity]].
    + unfold firm. rewrite Fc, Fp. tauto.
  - split; [reflexivity | split; [discriminate | reflexivity]].
  - split; [apply solid_to_string | split; [apply solid_to_string | exact Hp]].
  - split; [apply solid_to_string | split; [apply solid_to_string | exact Hp]].
Qed.

Lemma reachable_firm (st : State) : reachable st -> firm st.
Proof.
  induction 1 as [storage | st b _ IH | st _ IH].
  - destruct (HistoryFacts.start_vars storage) as (Hc & _ & Hp & _).
    unfold firm. rewrite Hc, Hp. split; [reflexivity |].
    split; [discriminate | reflexivity].
  - now apply firm_press.
  - unfold clearAllHistory.
    destruct (HistoryFacts.renderHistory_frame
                (saveHistory (set_history (JArr nil) st))) as [l ->].
    exact IH.
Qed.

Lemma session_reachable (st : State) : session st -> reachable st.
Proof.
  induction 1 as [storage Hs | st b _ IH | st _ IH | st _ IH].
  - apply reach_start.
  - now apply reach_press.
  - now apply reach_clear.
  - apply reach_start.
Qed.

(** *** Trimming *)

Lemma rev_onto_app (a b acc : string) :
  Str.rev_onto (a ++ b) acc = Str.rev_onto b (Str.rev_onto a acc).
Proof.
  revert acc; induction a as [|c a IH]; intros acc; [reflexivity |].
  rewrite append_cons. cbn [Str.rev_onto]. apply IH.
Qed.

Lemma rev_onto_acc (a acc : string) :
  Str.rev_onto a acc = Str.rev a ++ acc.
Proof.
  unfold Str.rev. revert acc; induction a as [|c a IH]; intros acc;
    [reflexivity |].
  cbn [Str.rev_onto]. rewrite (IH (String c acc)), (IH (String c "")).
  rewrite append_assoc. reflexivity.
Qed.

Lemma rev_app (a b : string) : Str.rev (a ++ b) = Str.rev b ++ Str.rev a.
Proof.
  unfold Str.rev at 1. rewrite rev_onto_app. apply rev_onto_acc.
Qed.

Lemma trim_start_solid (c : ascii) (s : string) :
  solid_char c = true -> Str.trim_start (String c s) = String c s.
Proof.
  intros H. apply solid_char_code in H as (H & _).
  cbn [Str.trim_start]. unfold Str.ws1, Str.ws2, Str.ws3. cbv zeta.
  destruct (Z.leb_spec 9 (Str.code c)); destruct (Z.leb_spec (Str.code c) 13);
    try lia; cbn [andb orb];
    destruct (Z.eqb_spec (Str.code c) 32); try lia; cbn [orb];
    destruct s as [|b [|d s3]]; try reflexivity;
    destruct (Z.eqb_spec (Str.code c) 194); try lia; cbn [andb];
    try reflexivity;
    destruct (Z.eqb_spec (Str.code c) 225); try lia;
    destruct (Z.eqb_spec (Str.code c) 226); try lia;
    destruct (Z.eqb_spec (Str.code c) 227); try lia;
    destruct (Z.eqb_spec (Str.code c) 239); try lia; reflexivity.
Qed.

Lemma trim_start_rev_solid (c : ascii) (s : string) :
  solid_char c = true -> Str.trim_start_rev (String c s) = String c s.
Proof.
  intros H. apply solid_char_code in H as (H & _).
  cbn [Str.trim_start_rev]. unfold Str.ws1, Str.ws2, Str.ws3. cbv zeta.
  destruct (Z.leb_spec 9 (Str.code c)); destruct (Z.leb_spec (Str.code c) 13);
    try lia; cbn [andb orb];
    destruct (Z.eqb_spec (Str.code c) 32); try lia; cbn [orb];
    destruct s as [|b [|d s3]]; try reflexivity;
    destruct (Z.eqb_spec (Str.code c) 160); try lia;
    rewrite ?andb_false_r; try reflexivity;
    destruct (Z.eqb_spec (Str.code c) 128); try lia;
    destruct (Z.leb_spec 128 (Str.code c)); try lia;
    destruct (Z.eqb_spec (Str.code c) 168); try lia;
    destruct (Z.eqb_spec (Str.code c) 169); try lia;
    destruct (Z.eqb_spec (Str.code c) 175); try lia;
    destruct (Z.eqb_spec (Str.code c) 159); try lia;
    destruct (Z.eqb_spec (Str.code c) 191); try lia;
    cbn [andb orb]; rewrite ?andb_false_r; reflexivity.
Qed.

Lemma solid_rev (s : string) : solid (Str.rev s) = solid s.
Proof.
  assert (G : forall a acc, solid (Str.rev_onto a acc) = solid a && solid acc).
  { induction a as [|c a IH]; intros acc; [reflexivity |].
    cbn [Str.rev_onto solid]. rewrite IH. cbn [solid].
    destruct (solid_char c); destruct (solid a); reflexivity. }
  unfold Str.rev. rewrite G. cbn [solid]. apply andb_true_r.
Qed.

Lemma rev_cons (s : string) : s <> "" -> exists c r, Str.rev s = String c r.
Proof.
  intros H. destruct s as [|a s]; [contradiction |].
  unfold Str.rev. cbn [Str.rev_onto]. rewrite rev_onto_acc.
  destruct (Str.rev s) as [|c r]; eexists; eexists; reflexivity.
Qed.

(** A text between two solid words, followed by one blank, is trimmed
    to itself. *)
Lemma trim_between (a mid c : string) :
  solid a = true -> a <> "" -> solid c = true -> c <> "" ->
  Str.trim ((a ++ mid ++ c) ++ " ") = a ++ mid ++ c.
Proof.
  intros Ha Na Hc Nc. unfold Str.trim.
  destruct a as [|x a']; [contradiction |].
  cbn [solid] in Ha. apply andb_prop in Ha as [Hx _].
  assert (E1 : Str.trim_start ((String x a' ++ mid ++ c) ++ " ")
               = (String x a' ++ mid ++ c) ++ " ").
  { rewrite !append_cons. now apply trim_start_solid. }
  rewrite E1. rewrite rev_app.
  change (Str.rev " ") with " ". rewrite append_cons, append_nil_l.
  assert (E2 : Str.trim_start_rev (String " " (Str.rev (String x a' ++ mid ++ c)))
               = Str.trim_start_rev (Str.rev (String x a' ++ mid ++ c))).
  { reflexivity. }
  rewrite E2.
  rewrite <- append_assoc, rev_app.
  destruct (rev_cons c Nc) as (z & r & Ez).
  assert (Hz : solid_char z = true).
  { pose proof (solid_rev c) as S. rewrite Ez, Hc in S. cbn [solid] in S.
    now apply andb_prop in S as [S _]. }
  rewrite Ez, append_cons, (trim_start_rev_solid z _ Hz).
  rewrite <- append_cons, <- Ez, <- rev_app.
  rewrite JSONFacts.rev_rev. reflexivity.
Qed.

Lemma before_stop (c : ascii) (a b : string) :
  Str.includes c a = false -> Str.before c (a ++ String c b) = a.
Proof.
  induction a as [|x a IH]; intros H.
  - rewrite append_nil_l. cbn [Str.before]. now rewrite Ascii.eqb_refl.
  - cbn [Str.includes] in H. apply orb_false_elim in H as [Hx Ha].
    rewrite append_cons. cbn [Str.before]. rewrite Hx, (IH Ha). reflexivity.
Qed.

(** The list item of a record made of firm operands shows the whole
    left-hand side. *)
Lemma head_shown (a c result : string) (o : Operator) :
  solid a = true -> a <> "" -> solid c = true -> c <> "" ->
  Str.trim (Str.before "=" ((a ++ " " ++ symbol o ++ " " ++ c) ++ " = " ++ result))
  = a ++ " " ++ symbol o ++ " " ++ c.
Proof.
  intros Ha Na Hc Nc.
  assert (E : (a ++ " " ++ symbol o ++ " " ++ c) ++ " = " ++ result
              = ((a ++ (" " ++ symbol o ++ " ") ++ c) ++ " ")
                  ++ String "=" (" " ++ result)).
  { rewrite !append_assoc. reflexivity. }
  rewrite E, before_stop.
  - rewrite (trim_between a (" " ++ symbol o ++ " ") c Ha Na Hc Nc).
    rewrite !append_assoc. reflexivity.
  - rewrite !includes_app, (solid_no_equals a Ha), (solid_no_equals c Hc).
    destruct o; reflexivity.
Qed.

End ListFacts.

Module ListedFacts.

Import StrFacts.

Lemma entry_inj (e e' : string * string) :
  entry (fst e) (snd e) = entry (fst e') (snd e') -> e = e'.
Proof.
  destruct e as [a b], e' as [a' b']. cbn [fst snd]. unfold entry.
  intros H. injection H as -> ->. reflexivity.
Qed.

Lemma log_inj (l l' : list (string * string)) : log l = log l' -> l = l'.
Proof.
  unfold log. intros H. injection H as H.
  revert l' H; induction l as [|e r IH]; intros [|e' r'] H; try discriminate;
    [reflexivity |].
  cbn [List.map] in H.
  pose proof (f_equal (hd JNull) H) as He. pose proof (f_equal (@tl JSValue) H) as Hr.
  cbn [hd tl] in He, Hr.
  apply entry_inj in He. subst e'. f_equal. now apply IH.
Qed.

Lemma Forall_removelast {A : Type} (P : A -> Prop) (l : list A) :
  Forall P l -> Forall P (removelast l).
Proof.
  induction 1 as [|x l Hx Hl IH]; [constructor |].
  destruct l as [|y r]; [constructor |].
  change (removelast (x :: y :: r)) with (x :: removelast (y :: r)).
  now constructor.
Qed.

Lemma Forall_pushed (P : string * string -> Prop) (p : string * string)
      (ps : list (string * string)) :
  P p -> Forall P ps -> Forall P (pushed p ps).
Proof.
  intros Hp Hps. unfold pushed.
  destruct (10 <? length (p :: ps))%nat;
    [apply Forall_removelast |]; now constructor.
Qed.

Lemma pushed_records (p : string * string) (ps : list (string * string)) :
  pushed (record_of p) (List.map record_of ps) = List.map record_of (pushed p ps).
Proof.
  unfold pushed. cbn [length]. rewrite length_map.
  destruct (10 <? S (length ps))%nat; [|reflexivity].
  change (record_of p :: List.map record_of ps)
    with (List.map record_of (p :: ps)).
  apply HistoryFacts.removelast_map.
Qed.

Lemma pushed_cons (p : string * string) (ps : list (string * string)) :
  exists r, pushed p ps = p :: r.
Proof.
  unfold pushed.
  destruct (Nat.ltb_spec 10 (length (p :: ps))) as [H|H]; [|eexists; reflexivity].
  destruct ps as [|q r]; [simpl in H; lia | eexists; reflexivity].
Qed.

Lemma li_of_record (p : string * string) :
  Str.trim (Str.before "=" (fst (record_of p))) = fst p ->
  li_of (record_of p) = item p.
Proof. intros H. unfold li_of, item. now rewrite H. Qed.

(** For calculations whose left-hand sides survive the cut at the
    equals sign, the list shows left-hand side and result of each. *)
Lemma shown_records (ps : list (string * string)) :
  Forall (fun p => Str.trim (Str.before "=" (fst (record_of p))) = fst p) ps ->
  shown (List.map record_of ps) = shown_items ps.
Proof.
  intros H. destruct ps as [|p r]; [reflexivity |].
  unfold shown, shown_items. cbn [List.map].
  change (li_of (record_of p) :: List.map li_of (List.map record_of r))
    with (List.map li_of (List.map record_of (p :: r))).
  change (item p :: List.map item r) with (List.map item (p :: r)).
  induction H as [|q qs Hq _ IH]; [reflexivity |].
  cbn [List.map]. now rewrite (li_of_record q Hq), IH.
Qed.

Lemma expression_record (o : Operator) (calculation : Prim) (st : State) :
  (expression_of o calculation st, ToString calculation)
  = record_of (lhs_of o st, ToString calculation).
Proof.
  unfold record_of, expression_of, lhs_of. cbn [fst snd].
  rewrite !append_assoc. reflexivity.
Qed.

Lemma previous_text (st : State) (o : Operator) :
  coupled st -> operator st = Some o -> ToString (previousInput st) <> "".
Proof.
  intros (C1 & _ & C3) Ho. destruct C3 as [[x E]|[E|E]]; rewrite E.
  - apply ListFacts.solid_to_string.
  - apply C1 in E. congruence.
  - discriminate.
Qed.

(** The record of a calculation on firm operands keeps its left-hand
    side through the cut at the equals sign and the trimming. *)
Lemma lhs_shown (o : Operator) (result : string) (st : State) :
  firm st -> coupled st -> operator st = Some o ->
  Str.trim (Str.before "=" (fst (record_of (lhs_of o st, result)))) = lhs_of o st.
Proof.
  intros (Hs & Hn & Hp) C Ho. unfold record_of, lhs_of. cbn [fst snd].
  apply ListFacts.head_shown; try assumption.
  now apply (previous_text st o).
Qed.

Lemma listed_same (ps : list (string * string)) (st st' : State) :
  history st' = history st ->
  calculationHistoryList st' = calculationHistoryList st ->
  listed ps st -> listed ps st'.
Proof.
  intros Hh Hl (L1 & L2 & L3). unfold listed. rewrite Hh, Hl. tauto.
Qed.

(** What a recording leaves: the new calculation in front, shown first. *)
Lemma listed_recorded (o : Operator) (ps : list (string * string)) (st : State) :
  firm st -> coupled st -> operator st = Some o -> listed ps st ->
  let calculation :=
    performCalculation o (parseFloat (previousInput st))
                       (Num.parseFloat (currentInput st)) in
  exists st1,
    addToHistory (expression_of o calculation st) calculation st = Done st1
    /\ listed (pushed (lhs_of o st, ToString calculation) ps) st1
    /\ calculationHistoryList st1
       = shown_items (pushed (lhs_of o st, ToString calculation) ps).
Proof.
  intros F C Ho (L1 & L2 & _). cbv zeta.
  set (calculation := performCalculation o (parseFloat (previousInput st))
                        (Num.parseFloat (currentInput st))).
  rewrite (HistoryFacts.addToHistory_log _ _ _ st L1).
  rewrite expression_record, pushed_records.
  assert (G : Forall (fun p => Str.trim (Str.before "=" (fst (record_of p))) = fst p)
                (pushed (lhs_of o st, ToString calculation) ps)).
  { apply Forall_pushed; [|exact L2]. now apply (lhs_shown o). }
  eexists. split; [reflexivity |].
  assert (S : calculationHistoryList
                (set_calculationHistoryList
                   (shown (List.map record_of
                             (pushed (lhs_of o st, ToString calculation) ps)))
                   (saveHistory
                      (set_history
                         (log (List.map record_of
                                 (pushed (lhs_of o st, ToString calculation) ps)))
                         st)))
              = shown_items (pushed (lhs_of o st, ToString calculation) ps)).
  { cbn [calculationHistoryList set_calculationHistoryList].
    now apply shown_records. }
  split; [|exact S].
  split; [reflexivity |]. split; [exact G |]. left. exact S.
Qed.

Lemma listed_press (b : Button) (ps : list (string * string)) (st : State) :
  firm st -> coupled st -> listed ps st ->
  exists ps', listed ps' (press st b).
Proof.
  intros F C L.
  destruct (resolves b st) eqn:R.
  - destruct b as [d| |o2| | | |]; try discriminate; unfold resolves in R;
      destruct (operator st) as [o|] eqn:Ho; try discriminate.
    + apply andb_prop in R as [Rw Re].
      apply negb_true_iff in Rw. apply negb_true_iff in Re.
      destruct (listed_recorded o ps st F C Ho L) as (st1 & E & L1 & _).
      cbv zeta in E.
      unfold press, click, handleOperator, handleOperatorWith.
      rewrite Ho, Rw, Re, E. cbn [and_then state_of].
      eexists. apply (listed_same _ st1); [reflexivity | reflexivity | exact L1].
    + apply negb_true_iff in R.
      destruct (listed_recorded o ps st F C Ho L) as (st1 & E & L1 & _).
      cbv zeta in E.
      unfold press, click, calculateResult, calculateResultWith.
      rewrite Ho, R, E. cbn [and_then state_of].
      eexists. apply (listed_same _ st1); [reflexivity | reflexivity | exact L1].
  - destruct (press_untouched st b R) as (Hh & Hl & _).
    exists ps. now apply (listed_same ps st).
Qed.

Lemma session_listed (st : State) : session st -> exists ps, listed ps st.
Proof.
  induction 1 as [storage Hs | st b H IH | st H IH | st H IH].
  - exists nil. unfold start, loadHistory. cbn [fresh localStorage]. rewrite Hs.
    split; [reflexivity |]. split; [constructor |]. right. split; reflexivity.
  - destruct IH as [ps L].
    apply (listed_press b ps).
    + apply ListFacts.reachable_firm. now apply ListFacts.session_reachable.
    + apply reachable_coupled. now apply ListFacts.session_reachable.
    + exact L.
  - exists nil. unfold clearAllHistory.
    rewrite (HistoryFacts.renderHistory_log nil) by reflexivity.
    split; [reflexivity |]. split; [constructor |]. left. reflexivity.
  - destruct IH as [ps (L1 & L2 & L3)].
    destruct (SessionFacts.session_kept st H) as (_ & _ & l & Hl & Hp & _ & Hst).
    assert (E : l = List.map record_of ps).
    { apply log_inj. now rewrite <- Hl. }
    subst l. exists ps. destruct Hst as [Hst|[Hn Hst]].
    + unfold start. rewrite (loadHistory_log _ _ Hp Hst).
      split; [reflexivity |]. split; [exact L2 |]. left.
      cbn [and_then state_of calculationHistoryList updateDisplay
           set_historyDisplay set_currentDisplay set_calculationHistoryList].
      now apply shown_records.
    + destruct ps; [|discriminate].
      unfold start, loadHistory. cbn [fresh localStorage]. rewrite Hst.
      split; [reflexivity |]. split; [constructor |]. right. split; reflexivity.
Qed.

End ListedFacts.

(** X21.  In a session the history list always shows the history: for
    calculations [lhs = result], newest first, the history holds the
    records with expression [lhs = result] and result [result], and the
    list holds, in the same order, one item per record with the whole
    [lhs] in its first span and [= result] in its second; with no
    calculations it shows the placeholder, or nothing yet if nothing has
    been rendered. *)
Theorem list_shows_history (st : State) :
  session st ->
  exists ps : list (string * string),
    history st = log (List.map record_of ps)
    /\ (calculationHistoryList st = shown_items ps
        \/ (ps = nil /\ calculationHistoryList st = nil)).
Proof.
  intros H. destruct (ListedFacts.session_listed st H) as [ps (L1 & _ & L3)].
  exists ps. split; assumption.
Qed.

Lemma list_shows_history_witness :
  exists ps : list (string * string),
    history (presses (BNumber D6 :: BOperator Subtract :: BNumber D2
                        :: BEquals :: nil) (state_of (start ∅)))
    = log (List.map record_of ps)
    /\ (calculationHistoryList
          (presses (BNumber D6 :: BOperator Subtract :: BNumber D2
                      :: BEquals :: nil) (state_of (start ∅)))
        = shown_items ps
        \/ (ps = nil
            /\ calculationHistoryList
                 (presses (BNumber D6 :: BOperator Subtract :: BNumber D2
                             :: BEquals :: nil) (state_of (start ∅))) = nil)).
Proof.
  apply list_shows_history.
  cbn [presses fold_left].
  repeat apply session_press. apply session_start. apply lookup_empty.
Defined.

(** X22.  In a session, equals and a chained operator put the
    calculation they resolve on top of the list: the first item shows
    [previousInput operator currentInput] as they were, and the text of
    the result. *)
Theorem resolved_on_top (o o2 : Operator) (st : State) :
  session st -> operator st = Some o -> waitingForSecondOperand st = false ->
  let calculation :=
    performCalculation o (parseFloat (previousInput st))
                       (Num.parseFloat (currentInput st)) in
  hd_error (calculationHistoryList (press st BEquals))
  = Some (item (lhs_of o st, ToString calculation))
  /\ hd_error (calculationHistoryList (press st (BOperator o2)))
     = Some (item (lhs_of o st, ToString calculation)).
Proof.
  intros H Ho Hw. cbv zeta.
  pose proof (ListFacts.session_reachable st H) as R.
  pose proof (ListFacts.reachable_firm st R) as F.
  pose proof (reachable_coupled st R) as C.
  destruct (ListedFacts.session_listed st H) as [ps L].
  destruct (ListedFacts.listed_recorded o ps st F C Ho L) as (st1 & E & _ & S).
  cbv zeta in E, S.
  assert (He : is_empty_string (previousInput st) = false).
  { destruct (is_empty_string (previousInput st)) eqn:He; [|reflexivity].
    apply is_empty_string_true in He. destruct C as (C1 & _).
    apply C1 in He. congruence. }
  assert (T : hd_error (calculationHistoryList st1)
              = Some (item (lhs_of o st,
                            ToString (performCalculation o
                                        (parseFloat (previousInput st))
                                        (Num.parseFloat (currentInput st)))))).
  { rewrite S.
    destruct (ListedFacts.pushed_cons
                (lhs_of o st,
                 ToString (performCalculation o (parseFloat (previousInput st))
                             (Num.parseFloat (currentInput st)))) ps) as [r ->].
    reflexivity. }
  split.
  - unfold press, click, calculateResult, calculateResultWith.
    rewrite Ho, Hw, E. exact T.
  - unfold press, click, handleOperator, handleOperatorWith.
    rewrite Ho, Hw, He, E. exact T.
Qed.

Lemma resolved_on_top_witness :
  hd_error (calculationHistoryList
              (press (presses (BNumber D6 :: BOperator Subtract :: BNumber D2 :: nil)
                        (state_of (start ∅))) BEquals))
  = Some (item ("6 - 2", "4")).
Proof.
  pose proof (resolved_on_top Subtract Add
                (presses (BNumber D6 :: BOperator Subtract :: BNumber D2 :: nil)
                   (state_of (start ∅)))) as H.
  cbv zeta in H. destruct H as [H _].
  - cbn [presses fold_left].
    repeat apply session_press. apply session_start. apply lookup_empty.
  - reflexivity.
  - reflexivity.
  - rewrite H. vm_compute. reflexivity.
Defined.

(** X23.  The start draws the history list only when something is
    stored: with no text, or the empty text, under the key it returns
    without touching the list, so the placeholder does not appear until
    the history is cleared or rendered for another reason. *)
Theorem start_leaves_list (storage : gmap string string) :
  storage !! historyKey = None \/ storage !! historyKey = Some "" ->
  exists st,
    start storage = Done st
    /\ history st = JArr nil
    /\ calculationHistoryList st = calculationHistoryList (fresh storage)
    /\ exists st1,
        clearAllHistory st = Done st1
        /\ calculationHistoryList st1 = Markup placeholder :: nil.
Proof.
  intros H.
  assert (E : start storage = Done (updateDisplay (fresh storage))).
  { unfold start, loadHistory. cbn [fresh localStorage].
    destruct H as [-> | ->]; reflexivity. }
  rewrite E. eexists. split; [reflexivity |]. split; [reflexivity |].
  split; [reflexivity |].
  unfold clearAllHistory.
  rewrite (HistoryFacts.renderHistory_log nil) by reflexivity.
  eexists. split; reflexivity.
Qed.

Lemma start_leaves_list_witness :
  exists st, start ∅ = Done st /\ calculationHistoryList st = nil.
Proof.
  destruct (start_leaves_list ∅ (or_introl (lookup_empty _)))
    as (st & H1 & _ & H2 & _).
  exists st. split; [exact H1 | exact H2].
Defined.

(** ** Length of the log *)

(** X24.  [addToHistory] removes at most one record: on a log of fewer
    than ten it adds one, on a log of ten or more it keeps the length.  So
    a log that was loaded with more than ten records is never cut back
    to ten. *)
Theorem addToHistory_length (expression : string) (result : Prim)
        (l : list (string * string)) (st : State) :
  history st = log l ->
  exists st' l',
    addToHistory expression result st = Done st'
    /\ history st' = log l'
    /\ hd_error l' = Some (expression, ToString result)
    /\ length l' = (if (length l <? 10)%nat then S (length l) else length l).
Proof.
  intros H. rewrite (HistoryFacts.addToHistory_log expression result l st H).
  eexists. exists (pushed (expression, ToString result) l).
  split; [reflexivity |]. split; [reflexivity |]. split.
  - destruct (ListedFacts.pushed_cons (expression, ToString result) l) as [r ->].
    reflexivity.
  - unfold pushed. cbn [length].
    destruct (Nat.ltb_spec 10 (S (length l))); destruct (Nat.ltb_spec (length l) 10);
      try lia; [|reflexivity].
    rewrite removelast_firstn_len, length_firstn. simpl. lia.
Qed.

Lemma addToHistory_length_witness :
  exists st' l',
    addToHistory "0 + 0 = 0" (PStr "0")
      (set_history (log (repeat ("1 + 1 = 2", "2") 12)) (fresh ∅)) = Done st'
    /\ history st' = log l' /\ length l' = 12%nat.
Proof.
  destruct (addToHistory_length "0 + 0 = 0" (PStr "0")
              (repeat ("1 + 1 = 2", "2") 12)
              (set_history (log (repeat ("1 + 1 = 2", "2") 12)) (fresh ∅))
              eq_refl) as (st' & l' & H1 & H2 & _ & H3).
  exists st', l'. split; [exact H1 |]. split; [exact H2 | exact H3].
Defined.
